(** * Streaming least-squares estimator: field decoders and orchestrator

    Shallow embedding of [Project2/ModuleDir/functions.py] and
    [Project2/ScalableAlgorithms/PythonScripts/linearRegression.py].

    Python integers are [Z]; numpy/Python floats are IEEE binary64 values,
    represented by [spec_float] with the operations of [SpecFloat] at
    precision 53 and maximal exponent 1024; text is [string] (one [ascii]
    per Latin-1 character).  Exceptions are an explicit result type, and
    the script's module-level variables are threaded through a small
    state-and-exception monad. *)

From Stdlib Require Import ZArith List String Ascii Bool Lia Permutation.
From Stdlib Require Import QArith Qreduction.
From Stdlib Require Import Floats.SpecFloat.
Import ListNotations.

Local Open Scope string_scope.
Local Open Scope Z_scope.

(** ** Python builtins used by the scripts *)

Module Py.

(** The exception classes that the statements of the two scripts raise
    themselves, and [OtherError], which stands for the class of any
    other name that a library call can raise on its input (an operating
    system error on a directory or a missing file, a runtime error on an
    encrypted member, an error of the decompressor, ...).  An exception
    is identified with the class that decides which handler catches it;
    the classes behind [OtherError] are none of the others and no
    subclass of them. *)
Inductive exn : Type :=
| ValueError
| ZeroDivisionError
| AssertionError
| IndexError
| KeyError
| TypeError
| NameError
| BadZipFile
| OtherError (class : string).

Definition exn_eqb (a b : exn) : bool :=
  match a, b with
  | ValueError, ValueError | ZeroDivisionError, ZeroDivisionError
  | AssertionError, AssertionError | IndexError, IndexError
  | KeyError, KeyError | TypeError, TypeError | NameError, NameError
  | BadZipFile, BadZipFile => true
  | OtherError c, OtherError d => String.eqb c d
  | _, _ => false
  end.

(** Result of evaluating an expression: a value or a raised exception. *)
Inductive res (X : Type) : Type :=
| Ok (x : X)
| Raise (e : exn).
Arguments Ok {X} x.
Arguments Raise {X} e.

Definition rbind {X Y} (r : res X) (k : X -> res Y) : res Y :=
  match r with
  | Ok x => k x
  | Raise e => Raise e
  end.

(** *** Strings: indexing and slicing *)

Definition chars (s : string) : list ascii := list_ascii_of_string s.
Definition str (l : list ascii) : string := string_of_list_ascii l.

Definition len (s : string) : Z := Z.of_nat (String.length s).

(** [s[i]]: a negative index counts from the end, an index out of range
    raises [IndexError]. *)
Definition index (s : string) (i : Z) : res string :=
  let j := if i <? 0 then i + len s else i in
  if (0 <=? j) && (j <? len s)
  then Ok (String.substring (Z.to_nat j) 1 s)
  else Raise IndexError.

(** [s[a:b]]: negative bounds count from the end, bounds are clamped to
    the string, an empty range gives the empty string; never raises. *)
Definition clamp (s : string) (i : Z) : Z :=
  let j := if i <? 0 then i + len s else i in
  Z.max 0 (Z.min j (len s)).

Definition slice (s : string) (a b : Z) : string :=
  let lo := clamp s a in
  let hi := clamp s b in
  String.substring (Z.to_nat lo) (Z.to_nat (hi - lo)) s.

(** *** Character classes *)

Definition code (c : ascii) : Z := Z.of_N (N_of_ascii c).

(** The Latin-1 characters that [int] and [float] strip from both ends
    of a string: tab to carriage return, the blank, and the two
    whitespace characters above 127 (next line and no-break space).
    The separators 28 to 31 are whitespace for [str.isspace] but are
    not stripped by the number parsers. *)
Definition is_space (c : ascii) : bool :=
  let n := code c in
  ((9 <=? n) && (n <=? 13)) || (n =? 32) || (n =? 133) || (n =? 160).

Definition is_digit (c : ascii) : bool :=
  let n := code c in (48 <=? n) && (n <=? 57).

Definition digit_val (c : ascii) : Z := code c - 48.

Fixpoint lstrip (l : list ascii) : list ascii :=
  match l with
  | c :: t => if is_space c then lstrip t else l
  | [] => []
  end.

Definition strip (l : list ascii) : list ascii :=
  rev (lstrip (rev (lstrip l))).

(** Underscores of a numeric literal: each one stands between two
    digits.  [drop_underscores prev l] removes them, or fails. *)
Fixpoint drop_underscores (prev : option ascii) (l : list ascii)
  : option (list ascii) :=
  match l with
  | [] =>
      match prev with
      | Some "_"%char => None
      | _ => Some []
      end
  | c :: t =>
      if Ascii.eqb c "_" then
        match prev with
        | Some p => if is_digit p then drop_underscores (Some c) t else None
        | None => None
        end
      else
        let ok := match prev with
                  | Some "_"%char => is_digit c
                  | _ => true
                  end in
        if ok then option_map (cons c) (drop_underscores (Some c) t)
        else None
  end.

(** Leading sign of a literal: [true] for a minus. *)
Definition split_sign (l : list ascii) : bool * list ascii :=
  match l with
  | "-"%char :: t => (true, t)
  | "+"%char :: t => (false, t)
  | _ => (false, l)
  end.

(** The longest prefix of decimal digits, as (value, digit count, rest). *)
Fixpoint take_digits (acc : Z) (cnt : Z) (l : list ascii)
  : Z * Z * list ascii :=
  match l with
  | c :: t =>
      if is_digit c then take_digits (10 * acc + digit_val c) (cnt + 1) t
      else (acc, cnt, l)
  | [] => (acc, cnt, [])
  end.

(** *** [int(s)] for a string argument, base 10

    The limit that recent interpreters put on the number of digits of
    the string (4300 by default) is left out: the fields of a record
    have at most four characters and the year code has two. *)

Definition parse_int (s : string) : option Z :=
  match drop_underscores None (strip (chars s)) with
  | None => None
  | Some l =>
      let '(neg, body) := split_sign l in
      let '(v, cnt, rest) := take_digits 0 0 body in
      match rest with
      | [] => if 0 <? cnt then Some (if neg then - v else v) else None
      | _ :: _ => None
      end
  end.

Definition int (s : string) : res Z :=
  match parse_int s with
  | Some v => Ok v
  | None => Raise ValueError
  end.

(** *** binary64 arithmetic *)

Definition f64 : Type := spec_float.

Definition prec : Z := 53.
Definition emax : Z := 1024.

Definition fadd : f64 -> f64 -> f64 := SFadd prec emax.
Definition fsub : f64 -> f64 -> f64 := SFsub prec emax.
Definition fmul : f64 -> f64 -> f64 := SFmul prec emax.
Definition fdiv : f64 -> f64 -> f64 := SFdiv prec emax.
Definition flt : f64 -> f64 -> bool := SFltb.

(** The quotient [num / den] of two integers ([0 < den]), correctly
    rounded to the nearest binary64 value, ties to even. *)
Definition round_quot (neg : bool) (num den : Z) : f64 :=
  match num with
  | Z0 => S754_zero neg
  | _ =>
      let '(m, e, l) := SFdiv_core_binary prec emax num 0 den 0 in
      binary_round_aux prec emax neg m e l
  end.

(** [float(i)] for an integer [i]. *)
Definition float_of_int (i : Z) : f64 :=
  round_quot (i <? 0) (Z.abs i) 1.

(** The decimal [mant * 10^e10], correctly rounded. *)
Definition float_of_decimal (neg : bool) (mant e10 : Z) : f64 :=
  if 0 <=? e10 then round_quot neg (mant * 10 ^ e10) 1
  else round_quot neg mant (10 ^ (- e10)).

(** *** [float(s)] for a string argument *)

Definition lower (c : ascii) : ascii :=
  let n := code c in
  if (65 <=? n) && (n <=? 90) then ascii_of_N (Z.to_N (n + 32)) else c.

Definition parse_exponent (l : list ascii) : option Z :=
  match l with
  | [] => Some 0
  | c :: t =>
      if Ascii.eqb (lower c) "e" then
        let '(neg, body) := split_sign t in
        let '(v, cnt, rest) := take_digits 0 0 body in
        match rest with
        | [] => if 0 <? cnt then Some (if neg then - v else v) else None
        | _ :: _ => None
        end
      else None
  end.

Definition parse_float (s : string) : option f64 :=
  match drop_underscores None (strip (chars s)) with
  | None => None
  | Some l =>
      let '(neg, body) := split_sign l in
      let word := str (map lower body) in
      if String.eqb word "inf" || String.eqb word "infinity" then Some (S754_infinity neg)
      else if String.eqb word "nan" then Some S754_nan
      else
        let '(ip, icnt, rest) := take_digits 0 0 body in
        let '(m, fcnt, rest') :=
          match rest with
          | "."%char :: t => take_digits ip 0 t
          | _ => (ip, 0, rest)
          end in
        if 0 <? icnt + fcnt then
          match parse_exponent rest' with
          | Some e => Some (float_of_decimal neg m (e - fcnt))
          | None => None
          end
        else None
  end.

Definition float (s : string) : res f64 :=
  match parse_float s with
  | Some v => Ok v
  | None => Raise ValueError
  end.

(** *** Numbers: a Python value that is an [int] or a [float] *)

Inductive num : Type :=
| PyInt (i : Z)
| PyFloat (f : f64).

Definition to_float (v : num) : f64 :=
  match v with
  | PyInt i => float_of_int i
  | PyFloat f => f
  end.

(** [i < v] and [v < i] for an integer [i]. *)
Definition int_lt_num (i : Z) (v : num) : bool :=
  match v with
  | PyInt j => i <? j
  | PyFloat f => flt (float_of_int i) f
  end.

Definition num_lt_int (v : num) (i : Z) : bool :=
  match v with
  | PyInt j => j <? i
  | PyFloat f => flt f (float_of_int i)
  end.

(** The exact rational value of a finite binary64 number. *)
Definition to_Q (f : f64) : option Q :=
  match f with
  | S754_zero _ => Some (0 # 1)%Q
  | S754_finite s m e =>
      let v := if 0 <=? e then ((Zpos m * 2 ^ e) # 1)%Q
               else (Zpos m # Z.to_pos (2 ^ (- e)))%Q in
      Some (Qred (if s then Qopp v else v))
  | _ => None
  end.

End Py.

(** ** [ModuleDir/functions.py] *)

Module functions.
Import Py.

(** One entry of the field layout table: 1-based character positions. *)
Record layout : Type := {
  genhlth : Z;
  bmi : Z * Z;
  income : Z * Z;
  education : Z
}.

(** A dict with integer keys; [dict.fromkeys] binds every key to [None]. *)
Definition dict (V : Type) : Type := list (Z * V).

Definition fromkeys {V} (keys : list Z) : dict (option V) :=
  map (fun k => (k, None)) keys.

Fixpoint setitem {V} (d : dict V) (k : Z) (v : V) : dict V :=
  match d with
  | [] => [(k, v)]
  | (k', v') :: t => if k' =? k then (k, v) :: t else (k', v') :: setitem t k v
  end.

Fixpoint getitem {V} (d : dict V) (k : Z) : res V :=
  match d with
  | [] => Raise KeyError
  | (k', v) :: t => if k' =? k then Ok v else getitem t k
  end.

Definition fieldDictBuild : dict (option layout) :=
  let fieldDict := fromkeys [0; 1; 2; 3; 11; 12; 13; 14] in
  let fieldDict := setitem fieldDict 11 (Some
    {| genhlth := 73; bmi := (1533, 1536); income := (124, 125);
       education := 122 |}) in
  let fieldDict := setitem fieldDict 12 (Some
    {| genhlth := 73; bmi := (1644, 1647); income := (116, 117);
       education := 114 |}) in
  let fieldDict := setitem fieldDict 13 (Some
    {| genhlth := 80; bmi := (2192, 2195); income := (152, 153);
       education := 150 |}) in
  let fieldDict := setitem fieldDict 14 (Some
    {| genhlth := 80; bmi := (2247, 2250); income := (152, 153);
       education := 150 |}) in
  fieldDict.

Definition getIncome (incomeString : string) : res Z :=
  if negb (String.eqb incomeString "  ") then
    rbind (int incomeString) (fun income => Ok income)
  else
    Ok 9.

(** The literals [0.1], [0.0001] and [0.01] of [convertBMI]. *)
Definition lit_0_1 : f64 := float_of_decimal false 1 (-1).
Definition lit_0_0001 : f64 := float_of_decimal false 1 (-4).
Definition lit_0_01 : f64 := float_of_decimal false 1 (-2).

(** The four [if] statements run one after the other on the local
    variable [bmi], which starts as the integer 0. *)
Definition convertBMI (bmiString : string) (shortYear : Z) : res num :=
  let bmi := PyInt 0 in
  rbind (if (shortYear =? 0) && negb (String.eqb bmiString "999")
         then rbind (float bmiString) (fun f => Ok (PyFloat (fmul lit_0_1 f)))
         else Ok bmi) (fun bmi =>
  rbind (if (shortYear =? 1) && negb (String.eqb bmiString "999999")
         then rbind (float bmiString) (fun f => Ok (PyFloat (fmul lit_0_0001 f)))
         else Ok bmi) (fun bmi =>
  rbind (if ((2 <=? shortYear) && (shortYear <=? 10))
            && negb (String.eqb bmiString "9999")
         then rbind (float bmiString) (fun f => Ok (PyFloat (fmul lit_0_01 f)))
         else Ok bmi) (fun bmi =>
  rbind (if (10 <? shortYear) && negb (String.eqb bmiString "    ")
         then rbind (float bmiString) (fun f => Ok (PyFloat (fmul lit_0_01 f)))
         else Ok bmi) (fun bmi =>
  Ok bmi)))).

Definition getEducation (educationString : string) : res Z :=
  if negb (String.eqb educationString " ") then
    rbind (int educationString) (fun education => Ok education)
  else
    Ok 9.

(** [assert c]: raises [AssertionError] when [c] is false. *)
Definition assert (c : bool) : res unit :=
  if c then Ok tt else Raise AssertionError.

Definition getHlth (hlthString : string) : res Z :=
  rbind (if negb (String.eqb hlthString " ") then
           rbind (int hlthString) (fun genhlth =>
           if 6 <? genhlth then Ok (-1) else Ok genhlth)
         else
           Ok (-1)) (fun genhlth =>
  rbind (assert (existsb (Z.eqb genhlth) [-1; 1; 2; 3; 4; 5; 6])) (fun _ =>
  Ok genhlth)).

End functions.

(** ** The online least-squares accumulator

    The update of lines 91-94 of [linearRegression.py], over an arbitrary
    scalar type: the script runs it on binary64 numbers, and the algebraic
    properties of the update are those of the scalar operations. *)

Module Accumulator.

Section Update.
Context {F : Type}.
Variable add mul : F -> F -> F.
Variable of_int : Z -> F.

(** [A] is a list of rows; [z] and [x] are columns, as lists. *)
Record acc : Type := {
  A : list (list F);
  z : list F;
  sumSqrs : Z;
  n : Z
}.

Fixpoint vadd (u v : list F) : list F :=
  match u, v with
  | a :: u', b :: v' => add a b :: vadd u' v'
  | _, _ => []
  end.

Fixpoint madd (M N : list (list F)) : list (list F) :=
  match M, N with
  | r :: M', s :: N' => vadd r s :: madd M' N'
  | _, _ => []
  end.

(** [x * x.T]: the product of a column and a row has inner dimension 1,
    so that each entry is a single product. *)
Definition outer (x : list F) : list (list F) :=
  map (fun xi => map (fun xj => mul xi xj) x) x.

(** [x * y] for an integer [y]. *)
Definition scale (x : list F) (y : Z) : list F :=
  map (fun xi => mul xi (of_int y)) x.

Definition accumulate (s : acc) (x : list F) (y : Z) : acc :=
  {| A := madd (A s) (outer x);
     z := vadd (z s) (scale x y);
     sumSqrs := sumSqrs s + y ^ 2;
     n := n s + 1 |}.

(** The observations of a list, accumulated from left to right. *)
Definition accumulate_all (s : acc) (obs : list (list F * Z)) : acc :=
  fold_left (fun s o => accumulate s (fst o) (snd o)) obs s.
End Update.

Arguments acc F : clear implicits.

(** [np.zeros(shape=(q, q))], [np.zeros(shape=(q, 1))], 0 and 0. *)
Definition zero_acc {F} (zero : F) (q : nat) : acc F :=
  {| A := repeat (repeat zero q) q; z := repeat zero q;
     sumSqrs := 0; n := 0 |}.

End Accumulator.

(** ** [ScalableAlgorithms/PythonScripts/linearRegression.py] *)

Module linearRegression.
Import Py functions.
Export Accumulator.

(** The part of numpy that is outside the repository: the pseudo-inverse,
    the inner product of a row and a column that the matrix product
    [@] computes, and the power [x ** k] of a float64 scalar, which numpy
    hands to the [pow] of the platform (close to the product, but not
    bound to round as it does). *)
Record numpy : Type := {
  pinv : list (list f64) -> list (list f64);
  dot : list f64 -> list f64 -> f64;
  power : f64 -> Z -> f64
}.

(** What [print] writes: a line of tab-separated cells; a number cell
    stands for its [str]. *)
Inductive cell : Type :=
| CStr (s : string)
| CInt (i : Z)
| CFloat (f : f64).

(** What the directory holds under a name, as the calls of lines 64-69
    see it: a file that is not an archive ([NotZip]); an archive that is
    read to its end, with its members, each a name and the lines of its
    text ([Zip]); an entry that [zipfile.ZipFile] cannot open at all, a
    directory or an unreadable file, with the exception of the call
    ([Unreadable]); an archive whose first member cannot be opened or
    read to its end, being encrypted, truncated or corrupt, with the
    lines that the reader yields before the exception and the exception
    ([Damaged]). *)
Inductive archive : Type :=
| NotZip
| Zip (members : list (string * list string))
| Unreadable (e : exn)
| Damaged (members : list (string * list string)) (e : exn).

(** The text reader of line 68: the lines it yields, and the exception
    that ends the iteration over a damaged member. *)
Definition reader : Type := list string * option exn.

(** The module-level variables of the script that the loop mutates. *)
Record globals : Type := {
  g_acc : acc f64;
  g_b : option (list f64);
  g_stdout : list (list cell)
}.

(** Statements: they read and write the globals, and may raise; the
    globals written before an exception stay written. *)
Definition M (X : Type) : Type := globals -> res X * globals.

Definition ret {X} (x : X) : M X := fun g => (Ok x, g).
Definition raise {X} (e : exn) : M X := fun g => (Raise e, g).
Definition lift {X} (r : res X) : M X := fun g => (r, g).

Definition bind {X Y} (m : M X) (k : X -> M Y) : M Y :=
  fun g =>
    match m g with
    | (Ok x, g') => k x g'
    | (Raise e, g') => (Raise e, g')
    end.

Notation "x <- m ;; k" := (bind m (fun x => k))
  (at level 61, m at next level, right associativity).
Notation "m ;;; k" := (bind m (fun _ => k))
  (at level 61, right associativity).

Definition get : M globals := fun g => (Ok g, g).
Definition put (g : globals) : M unit := fun _ => (Ok tt, g).

Definition print (line : list cell) : M unit :=
  fun g => (Ok tt, {| g_acc := g_acc g; g_b := g_b g;
                      g_stdout := g_stdout g ++ [line] |}).

(** [try: body except (e1, ...): pass] *)
Definition try_except (handled : list exn) (body : M unit) : M unit :=
  fun g =>
    match body g with
    | (Ok u, g') => (Ok u, g')
    | (Raise e, g') =>
        if existsb (exn_eqb e) handled then (Ok tt, g') else (Raise e, g')
    end.

(** [for x in l: body] *)
Fixpoint for_each {X} (l : list X) (body : X -> M unit) : M unit :=
  match l with
  | [] => ret tt
  | x :: t => body x ;;; for_each t body
  end.

(** [for record in reader: body] *)
Definition for_reader (r : reader) (body : string -> M unit) : M unit :=
  for_each (fst r) body ;;;
  match snd r with
  | Some e => raise e
  | None => ret tt
  end.

(** binary64 scalars of the accumulator. *)
Definition accumulate64 : acc f64 -> list f64 -> Z -> acc f64 :=
  accumulate fadd fmul float_of_int.

(** [a / b] for integers, and [a / b] for a float and an integer. *)
Definition truediv_int (a b : Z) : res f64 :=
  if b =? 0 then Raise ZeroDivisionError
  else Ok (round_quot (negb (Bool.eqb (a <? 0) (b <? 0))) (Z.abs a) (Z.abs b)).

Definition truediv_float_int (a : f64) (b : Z) : res f64 :=
  if b =? 0 then Raise ZeroDivisionError
  else Ok (fdiv a (float_of_int b)).

(** [round(x, ndigits)]: the nearest decimal with [ndigits] places, ties
    to even, as a float. *)
Definition round_half_even (v : Q) : Z :=
  let a := Qnum v in
  let d := Zpos (Qden v) in
  let k := a / d in
  match (2 * (a mod d)) ?= d with
  | Lt => k
  | Gt => k + 1
  | Eq => if Z.even k then k else k + 1
  end.

Definition sign_bit (x : f64) : bool :=
  match x with
  | S754_zero s | S754_infinity s | S754_finite s _ _ => s
  | S754_nan => false
  end.

Definition round (x : f64) (ndigits : Z) : f64 :=
  match to_Q x with
  | Some v =>
      let k := round_half_even (Qmult v (10 ^ ndigits # 1)) in
      float_of_decimal (sign_bit x) (Z.abs k) (- ndigits)
  | None => x
  end.

Section Script.
Variable np : numpy.

Definition q : Z := 4.

Definition fieldDict : dict (option layout) := fieldDictBuild.

(** Lines 39-43 (b is not bound yet). *)
Definition init : globals :=
  {| g_acc := zero_acc (float_of_int 0) (Z.to_nat q);
     g_b := None; g_stdout := [] |}.

(** [pinv(A) @ z] *)
Definition estimate (s : acc f64) : list f64 :=
  map (fun row => dot np row (z s)) (pinv np (A s)).

(** Lines 83-103: the body of the inner [try]. *)
Definition accept (education income : Z) (bmi : num) (y : Z) : bool :=
  (education <? 9) && (income <? 9)
  && (int_lt_num 0 bmi && num_lt_int bmi 99) && negb (y =? -1).

Definition validate_accumulate (education income : Z) (bmi : num) (y : Z)
  : M unit :=
  try_except [ZeroDivisionError]
    (x <- (if accept education income bmi y
           then ret [float_of_int 1; float_of_int income;
                     float_of_int education; to_float bmi]
           else raise ZeroDivisionError) ;;
     g <- get ;;
     put {| g_acc := accumulate64 (g_acc g) x y;
            g_b := g_b g; g_stdout := g_stdout g |} ;;;
     g <- get ;;
     if (n (g_acc g) mod 10000 =? 0) && negb (n (g_acc g) =? 0) then
       let b := estimate (g_acc g) in
       put {| g_acc := g_acc g; g_b := Some b; g_stdout := g_stdout g |} ;;;
       print (map CFloat b)
     else ret tt).

(** Lines 70-79: the four field decodes of one record. *)
Definition decode (fields : layout) (shortYear : Z) (record : string)
  : res (Z * Z * num * Z) :=
  let fEduc := education fields in
  let '(sInc, eInc) := income fields in
  let '(sBMI, eBMI) := bmi fields in
  let fGH := genhlth fields in
  rbind (rbind (index record (fEduc - 1)) getEducation) (fun education =>
  rbind (getIncome (slice record (sInc - 1) eInc)) (fun income =>
  rbind (convertBMI (slice record (sBMI - 1) eBMI) shortYear) (fun bmi =>
  rbind (rbind (index record (fGH - 1)) getHlth) (fun y =>
  Ok (education, income, bmi, y))))).

(** Lines 70-104: the body of the record loop. *)
Definition process_record (fields : layout) (shortYear : Z)
  (record : string) : M unit :=
  d <- lift (decode fields shortYear record) ;;
  let '(education, income, bmi, y) := d in
  validate_accumulate education income bmi y.

(** Lines 47-60: the year code of a file name and its table entry. *)
Definition select_year (filename : string) : M (Z * layout) :=
  shortYear <- lift (int (slice filename 6 8)) ;;
  (if shortYear <? 11 then raise ZeroDivisionError else ret tt) ;;;
  print [CStr filename] ;;;
  fields <- lift (getitem fieldDict shortYear) ;;
  match fields with
  | Some f => ret (shortYear, f)
  | None => raise TypeError
  end.

(** Lines 64-68: the reader of the single member of the archive. *)
Definition open_member (zipFileList : list (string * list string))
  (failure : option exn) : res reader :=
  rbind (assert (Z.of_nat (List.length zipFileList) =? 1)) (fun _ =>
  match zipFileList with
  | (_, lines) :: _ => Ok (lines, failure)
  | [] => Raise IndexError
  end).

Definition open_reader (a : archive) : res reader :=
  match a with
  | NotZip => Raise BadZipFile
  | Unreadable e => Raise e
  | Zip zipFileList => open_member zipFileList None
  | Damaged zipFileList e => open_member zipFileList (Some e)
  end.

(** Lines 46-107: the body of the file loop. *)
Definition process_file (entry : string * archive) : M unit :=
  let '(filename, file) := entry in
  try_except [ValueError; ZeroDivisionError]
    (sel <- select_year filename ;;
     let '(shortYear, fields) := sel in
     reader <- lift (open_reader file) ;;
     for_reader reader (process_record fields shortYear)).

Definition file_loop (fileList : list (string * archive)) : M unit :=
  for_each fileList process_file.

(** Lines 111-123. *)
Definition header : list cell :=
  [CStr "n"; CStr "b0"; CStr "inc"; CStr "edu"; CStr "bmi"; CStr "r^2_adj"].

Definition finalize : M unit :=
  g <- get ;;
  let s := g_acc g in
  let ybar := fdiv (nth 0 (z s) S754_nan) (float_of_int (n s)) in
  b <- match g_b g with
       | Some b => ret b
       | None => raise NameError
       end ;;
  varEst <- lift (truediv_float_int
                    (fsub (float_of_int (sumSqrs s)) (dot np b (z s)))
                    (n s - q)) ;;
  ratio <- lift (truediv_int (n s - 1) (n s - q)) ;;
  let rAdj :=
    fsub (float_of_int 1)
      (fmul ratio
         (fdiv (fsub (float_of_int (sumSqrs s)) (dot np b (z s)))
               (fsub (float_of_int (sumSqrs s))
                     (fmul (float_of_int (n s)) (power np ybar 2))))) in
  let bList := map (fun bi => CFloat (round bi 3)) b in
  print header ;;;
  print ([CInt (n s)] ++ bList ++ [CFloat (round rAdj 3)]).

(** The whole script, from the directory listing on. *)
Definition main (fileList : list (string * archive)) : M unit :=
  file_loop fileList ;;; finalize.

Definition run (fileList : list (string * archive)) : res unit * globals :=
  main fileList init.
End Script.

End linearRegression.

(** ** Properties of the field decoders *)

Import Py functions.






(** A string all of whose characters are blanks. *)
Definition entirely_blank (s : string) : bool :=
  forallb (Ascii.eqb " ") (chars s).

(** ** Sample inputs *)

Import linearRegression.

(** The test [0 < bmi < 99] as the specification states it, on the exact
    value of the number: an integer strictly between 0 and 99, or a
    finite binary64 number whose rational value is; an infinity and a
    NaN are not. *)
Definition bmi_valid_spec (bmi : num) : Prop :=
  match bmi with
  | PyInt j => 0 < j < 99
  | PyFloat f => exists v, to_Q f = Some v /\ (0 # 1 < v)%Q /\ (v < 99 # 1)%Q
  end.

(** A number of the interpreter: any integer, or a binary64 value in the
    form that the arithmetic produces (a NaN, an infinity, a zero, or a
    mantissa and an exponent within the format). *)
Definition well_formed (v : num) : Prop :=
  match v with
  | PyInt _ => True
  | PyFloat f => valid_binary prec emax f = true
  end.

(** The exact value [m * 2^e] of a positive finite number is below 99,
    in integers. *)
Definition below99 (m : positive) (e : Z) : Prop :=
  if 0 <=? e then Zpos m * 2 ^ e < 99 else Zpos m < 99 * 2 ^ (- e).

(** The exact value [m * 2^e], as a fraction. *)
Definition magnitude (m : positive) (e : Z) : Q :=
  if 0 <=? e then ((Zpos m * 2 ^ e) # 1)%Q
  else (Zpos m # Z.to_pos (2 ^ (- e)))%Q.

(** An instance of [numpy] for the sample runs, which all accept fewer
    than 10,000 observations and so never call [pinv]; its inner product
    sums the products from left to right, and its power multiplies. *)
Definition np0 : numpy :=
  {| pinv := fun M => M;
     dot := fun u v =>
       fold_left fadd (map (fun p => fmul (fst p) (snd p)) (combine u v))
         (S754_zero false);
     power := fun x k => Z.iter k (fmul x) (float_of_int 1) |}.

Definition spaces (k : nat) : string :=
  string_of_list_ascii (repeat " "%char k).

(** A record of the 2011 layout: health rating at column 73, education
    at 122, income at 124-125, BMI at 1533-1536. *)
Definition record11 (hlth edu inc bmi : string) : string :=
  (spaces 72 ++ hlth ++ spaces 48 ++ edu ++ " " ++ inc ++ spaces 1407
   ++ bmi)%string.

Definition good11 : string := record11 "3" "4" "05" "2500".
Definition malformed11 : string := record11 "3" "x" "05" "2500".

(** The globals after [print line]. *)
Definition printed (line : list cell) (g : globals) : globals :=
  {| g_acc := g_acc g; g_b := g_b g; g_stdout := g_stdout g ++ [line] |}.

(** The year code as the specification locates it: characters 7 and 8,
    counted from 0. *)
Definition year_code_spec (filename : string) : option Z :=
  parse_int (slice filename 7 9).

(** The records of a selected file: lines 64-104 under the handler of
    line 106. *)
Definition process_records (np : numpy) (fields : layout) (shortYear : Z)
  (file : archive) : M unit :=
  try_except [ValueError; ZeroDivisionError]
    (bind (lift (open_reader file)) (fun reader =>
     for_reader reader (process_record np fields shortYear))).

(** The accumulator of the script after the observations of a list. *)
Definition accumulated (obs : list (list f64 * Z)) : acc f64 :=
  accumulate_all fadd fmul float_of_int
    (zero_acc (float_of_int 0) (Z.to_nat q)) obs.

(** The estimate of the most recent progress report after the accepted
    observations [obs]: none before the 10,000th, and afterwards the one
    computed when the count last was a multiple of 10,000. *)
Definition last_report (np : numpy) (obs : list (list f64 * Z))
  : option (list f64) :=
  let count := Z.of_nat (List.length obs) in
  if count <? 10000 then None
  else Some (estimate np
               (accumulated (firstn (Z.to_nat (10000 * (count / 10000))) obs))).

(** An observation that passed the validity filter: the design vector
    [1, income, education, bmi] and the health rating of accepted
    fields. *)
Definition accepted_obs (o : list f64 * Z) : Prop :=
  exists education income bmi,
    accept education income bmi (snd o) = true
    /\ fst o = [float_of_int 1; float_of_int income;
                float_of_int education; to_float bmi].

(** The globals hold the accumulator of the accepted observations [obs]
    and the estimate of the last progress report. *)
Definition tracks (np : numpy) (g : globals) (obs : list (list f64 * Z))
  : Prop :=
  g_acc g = accumulated obs /\ g_b g = last_report np obs
  /\ Forall accepted_obs obs.

Definition tracked (np : numpy) (g : globals) : Prop :=
  exists obs, tracks np g obs.

(** A statement keeps a property of the globals, however it ends. *)
Definition preserves (P : globals -> Prop) {X} (m : M X) : Prop :=
  forall g, P g -> P (snd (m g)).

(** The statistics of the final report as the specification gives them,
    on binary64 numbers: [ybar = z[0]/n], the residual sum
    [sumSqrs - b'z], the residual variance and the adjusted R squared. *)
Definition ybar_spec (s : acc f64) : f64 :=
  fdiv (nth 0 (z s) S754_nan) (float_of_int (n s)).

Definition residual_spec (np : numpy) (s : acc f64) (b : list f64) : f64 :=
  fsub (float_of_int (sumSqrs s)) (dot np b (z s)).

Definition total_spec (np : numpy) (s : acc f64) : f64 :=
  fsub (float_of_int (sumSqrs s))
    (fmul (float_of_int (n s)) (power np (ybar_spec s) 2)).

Definition residual_variance_spec (np : numpy) (s : acc f64) (b : list f64)
  : f64 :=
  fdiv (residual_spec np s b) (float_of_int (n s - 4)).

Definition adjusted_r_squared_spec (np : numpy) (s : acc f64) (b : list f64)
  : f64 :=
  fsub (float_of_int 1)
    (fmul (round_quot false (n s - 1) (n s - 4))
       (fdiv (residual_spec np s b) (total_spec np s))).

Definition is_zero (f : f64) : bool :=
  match f with
  | S754_zero _ => true
  | _ => false
  end.

(** The two lines of the final report. *)
Definition report (np : numpy) (s : acc f64) (b : list f64)
  : list (list cell) :=
  [ header;
    [CInt (n s)] ++ map (fun bi => CFloat (round bi 3)) b
    ++ [CFloat (round (adjusted_r_squared_spec np s b) 3)] ]%list.

(** Five valid records of the 2011 layout, with health ratings 1 to 5. *)
Definition five_records : list string :=
  map (fun h => record11 h "4" "05" "2500") ["1"; "2"; "3"; "4"; "5"].

(** The observation of a record with income 1, education 1, health
    rating 1 and the given BMI field, under the 2011 rule. *)
Definition observation (bmiString : string) : list f64 * Z :=
  match convertBMI bmiString 11 with
  | Ok v => ([float_of_int 1; float_of_int 1; float_of_int 1; to_float v], 1)
  | Raise _ => ([], 0)
  end.

(** Integer scalars, for which addition is exact. *)
Definition accumulateZ_all : acc Z -> list (list Z * Z) -> acc Z :=
  accumulate_all Z.add Z.mul (fun i => i).

(** The 2011 entry of the field layout table. *)
Definition layout11 : layout :=
  {| genhlth := 73; bmi := (1533, 1536); income := (124, 125);
     education := 122 |}.

(** An archive of the 2011 survey with one member. *)
Definition file11 (records : list string) : string * archive :=
  ("LLCP2011.zip", Zip [("LLCP2011.ASC", records)]).

(** Three accepted observations, in two orders. *)
Definition obs_up : list (list f64 * Z) :=
  map observation ["0010"; "0020"; "0030"].
Definition obs_down : list (list f64 * Z) :=
  map observation ["0030"; "0020"; "0010"].

(** ** Definitions for further properties of the two scripts *)

(** The columns of a layout entry are in the order health rating,
    education, income, BMI; income takes two columns and BMI four. *)
Definition ordered_layout (f : layout) : Prop :=
  0 < genhlth f /\ genhlth f < education f
  /\ education f < fst (income f)
  /\ snd (income f) = fst (income f) + 1
  /\ snd (income f) < fst (bmi f)
  /\ snd (bmi f) = fst (bmi f) + 3.

(** A file name that gets past lines 47-49: its slice [6:8] parses to a
    year code of at least 11. *)
Definition selected (filename : string) : bool :=
  match parse_int (slice filename 6 8) with
  | Some c => 11 <=? c
  | None => false
  end.

(** The exceptions that the statements of the script raise themselves
    and that no handler of the file loop catches. *)
Definition escapes (e : exn) : bool :=
  match e with
  | IndexError | AssertionError | KeyError => true
  | _ => false
  end.

(** The exception that the zip library raises on an entry of the
    directory, when it cannot open it or read its member to the end. *)
Definition library_failure (a : archive) : option exn :=
  match a with
  | NotZip => Some BadZipFile
  | Unreadable e | Damaged _ e => Some e
  | Zip _ => None
  end.

(** The result of a statement is a normal end or an exception of [P]. *)
Definition raises_only (P : exn -> bool) {X} (r : res X) : Prop :=
  match r with
  | Ok _ => True
  | Raise e => P e = true
  end.

(** The exceptions of the field decodes of one record. *)
Definition decode_exn (e : exn) : bool :=
  match e with
  | ValueError | IndexError | AssertionError => true
  | _ => false
  end.

(** The entry of row [i] and column [j] of a matrix given by rows. *)
Definition entry {F} (M : list (list F)) (i j : nat) : option F :=
  match nth_error M i with
  | Some row => nth_error row j
  | None => None
  end.

Definition symmetric {F} (M : list (list F)) : Prop :=
  forall i j, entry M i j = entry M j i.

(** A [k] by [k] matrix and a column of [k] entries. *)
Definition shaped {F} (k : nat) (s : acc F) : Prop :=
  List.length (A s) = k
  /\ Forall (fun row => List.length row = k) (A s)
  /\ List.length (z s) = k.

(** The health ratings of the accumulated observations are between 1
    and 6: the count and the sum of their squares bound each other. *)
Definition squares_bounded (g : globals) : Prop :=
  0 <= n (g_acc g)
  /\ n (g_acc g) <= sumSqrs (g_acc g) <= 36 * n (g_acc g).

(** A printed line that is not the name of a file. *)
Definition is_report (line : list cell) : bool :=
  match line with
  | [CStr _] => false
  | _ => true
  end.

(** The progress lines printed so far are one per 10,000 accepted
    observations. *)
Definition reports_counted (g : globals) : Prop :=
  0 <= n (g_acc g)
  /\ Z.of_nat (List.length (filter is_report (g_stdout g))) =
     n (g_acc g) / 10000.

(** The four-character field that holds the number [k] in decimal, with
    leading zeros. *)
Definition digit_char (d : Z) : ascii := ascii_of_N (Z.to_N (48 + d)).

Definition field4 (k : Z) : string :=
  String (digit_char (k / 1000 mod 10))
    (String (digit_char (k / 100 mod 10))
       (String (digit_char (k / 10 mod 10))
          (String (digit_char (k mod 10)) ""))).

(** The test [0 < bmi < 99] of line 84. *)
Definition bmi_in_range (v : num) : bool :=
  int_lt_num 0 v && num_lt_int v 99.

(** The 256 characters. *)
Definition all_ascii : list ascii := map ascii_of_nat (seq 0 256).

(** The check that the BMI field [field4 k] decodes under the 2011 rule
    to a float that passes the test of line 84 exactly when [k] is
    between 1 and 9899. *)
Definition bmi_check (k : Z) : bool :=
  match convertBMI (field4 k) 11 with
  | Ok (PyFloat f) =>
      Bool.eqb (bmi_in_range (PyFloat f)) ((1 <=? k) && (k <=? 9899))
  | _ => false
  end.

(** [P] holds of the [count] integers from [k] on. *)
Fixpoint all_from (count : nat) (k : Z) (P : Z -> bool) : bool :=
  match count with
  | O => true
  | S count' => P k && all_from count' (k + 1) P
  end.

(** The check that [getIncome] on the two characters gives a number
    between -9 and 99 or raises [ValueError]. *)
Definition income_check (c1 c2 : ascii) : bool :=
  match getIncome (String c1 (String c2 "")) with
  | Ok v => (-9 <=? v) && (v <=? 99)
  | Raise e => exn_eqb e ValueError
  end.

(** A record whose four fields decode and pass the validity test. *)
Definition record_accepted (fields : layout) (c : Z) (record : string)
  : bool :=
  match decode fields c record with
  | Ok (e, i, b, y) => accept e i b y
  | Raise _ => false
  end.

(** A record whose four fields decode without an exception. *)
Definition record_decodes (fields : layout) (c : Z) (record : string)
  : bool :=
  match decode fields c record with
  | Ok _ => true
  | Raise _ => false
  end.

(** A record of the 2011 layout with the health rating 9, which decodes
    to -1 and is rejected. *)
Definition rejected11 : string := record11 "9" "4" "05" "2500".
Lemma rbind_Ok {X} (r : res X) : rbind r (fun x => Ok x) = r.
Proof. destruct r; reflexivity. Qed.



(** C4: on a one-character string [getHlth] returns -1 for a blank and
    for the digits 7 to 9, the digit itself for 1 to 6, raises
    [ValueError] on any other non-digit, and on "0" the range check lets
    0 through, so that the closing assertion fails. *)
Theorem getHlth_single_character :
  (forall c : ascii,
      getHlth (String c "") =
      if Ascii.eqb c " " then Ok (-1)
      else if is_digit c then
        if digit_val c =? 0 then Raise AssertionError
        else if digit_val c <=? 6 then Ok (digit_val c)
        else Ok (-1)
      else Raise ValueError)
  /\ getHlth "3" = Ok 3
  /\ getHlth "9" = Ok (-1)
  /\ getHlth " " = Ok (-1)
  /\ getHlth "0" = Raise AssertionError.
Proof.
  split; [| repeat split].
  intros [[] [] [] [] [] [] [] []]; vm_compute; reflexivity.
Qed.

(** C10, as the specification words it, fails: a substring of two blanks
    is entirely blank, and [getEducation] raises on it. *)
Lemma getEducation_two_blanks :
  entirely_blank "  " = true /\ getEducation "  " = Raise ValueError.
Proof. split; reflexivity. Qed.

(** C10: [getEducation] returns the sentinel 9 exactly on the string of
    one blank and [getIncome] exactly on the string of two blanks; on any
    other input each returns the input parsed as an integer and raises
    [ValueError] when it does not parse; income "07" is 7. *)
Theorem education_income_decoders :
  (forall s, getEducation s =
             if String.eqb s " " then Ok 9
             else match parse_int s with
                  | Some v => Ok v
                  | None => Raise ValueError
                  end)
  /\ (forall s, getIncome s =
                if String.eqb s "  " then Ok 9
                else match parse_int s with
                     | Some v => Ok v
                     | None => Raise ValueError
                     end)
  /\ getIncome "07" = Ok 7
  /\ getEducation "7" = Ok 7.
Proof.
  split; [| split; [| split; reflexivity]].
  - intros s. unfold getEducation. rewrite rbind_Ok.
    destruct (String.eqb s " "); reflexivity.
  - intros s. unfold getIncome. rewrite rbind_Ok.
    destruct (String.eqb s "  "); reflexivity.
Qed.

(** ** Properties of the file and record loops *)

(** ** The validity test on binary64 numbers

    The comparison of binary64 numbers orders the finite ones by
    exponent and mantissa; on numbers in the form of the format this is
    the order of their exact values. *)

Lemma digits2_pos_bounds (m : positive) :
  2 ^ (Zpos (digits2_pos m) - 1) <= Zpos m < 2 ^ Zpos (digits2_pos m).
Proof.
  induction m as [p IH | p IH |]; cbn [digits2_pos].
  - rewrite Pos2Z.inj_succ.
    replace (Z.succ (Z.pos (digits2_pos p)) - 1) with (Z.succ (Z.pos (digits2_pos p) - 1)) by lia.
    rewrite !Z.pow_succ_r by lia. lia.
  - rewrite Pos2Z.inj_succ.
    replace (Z.succ (Z.pos (digits2_pos p)) - 1) with (Z.succ (Z.pos (digits2_pos p) - 1)) by lia.
    rewrite !Z.pow_succ_r by lia. lia.
  - cbn. lia.
Qed.

Lemma bounded_digits (m : positive) (e : Z) :
  bounded prec emax m e = true ->
  Zpos (digits2_pos m) <= 53 /\ (e = -1074 \/ Zpos (digits2_pos m) = 53).
Proof.
  unfold bounded, canonical_mantissa, fexp, emin, prec, emax.
  rewrite andb_true_iff, Z.eqb_eq, Z.leb_le. lia.
Qed.

Lemma flt_99 (m : positive) (e : Z) :
  bounded prec emax m e = true ->
  flt (S754_finite false m e) (float_of_int 99) = true <-> below99 m e.
Proof.
  intros Hb. destruct (bounded_digits m e Hb) as [Hd He].
  pose proof (digits2_pos_bounds m) as Hm.
  change (float_of_int 99) with (S754_finite false 6966505673588736 (-46)).
  unfold flt, SFltb, SFcompare, below99.
  destruct (Z.compare_spec e (-46)) as [-> | Hlt | Hgt].
  - change (0 <=? -46) with false. cbv iota.
    rewrite Pos.compare_cont_spec.
    replace (99 * 2 ^ (- (-46))) with (Zpos 6966505673588736)
      by (vm_compute; reflexivity).
    rewrite Pos2Z.inj_compare.
    destruct (Z.compare_spec (Zpos m) (Zpos 6966505673588736)) as [H | H | H];
      cbn [Pos.switch_Eq]; split; intros H'; try discriminate H';
      try reflexivity; lia.
  - replace (0 <=? e) with false by lia.
    split; [intros _ | reflexivity].
    assert (2 ^ 53 <= 99 * 2 ^ (- e)).
    { assert (2 ^ 47 <= 2 ^ (- e)) by (apply Z.pow_le_mono_r; lia).
      change (2 ^ 53) with (64 * 2 ^ 47). lia. }
    assert (2 ^ Zpos (digits2_pos m) <= 2 ^ 53) by (apply Z.pow_le_mono_r; lia).
    lia.
  - split; [discriminate |]. intros H. exfalso.
    assert (Hd53 : Zpos (digits2_pos m) = 53) by lia.
    rewrite Hd53 in Hm. change (2 ^ (53 - 1)) with (2 ^ 52) in Hm.
    destruct (Z.leb_spec 0 e) as [H0 | H0].
    + assert (1 <= 2 ^ e) by (apply (Z.pow_le_mono_r 2 0 e); lia).
      assert (99 < 2 ^ 52) by reflexivity. nia.
    + assert (2 ^ (- e) <= 2 ^ 45) by (apply Z.pow_le_mono_r; lia).
      change (2 ^ 52) with (128 * 2 ^ 45) in Hm. lia.
Qed.

Lemma Qred_lt_l (v w : Q) : (Qred v < w)%Q <-> (v < w)%Q.
Proof. rewrite (Qred_correct v). reflexivity. Qed.

Lemma Qred_lt_r (v w : Q) : (w < Qred v)%Q <-> (w < v)%Q.
Proof. rewrite (Qred_correct v). reflexivity. Qed.

Lemma pow_pos_Zpos (k : Z) : 0 <= k -> Zpos (Z.to_pos (2 ^ k)) = 2 ^ k.
Proof.
  intros H. apply Z2Pos.id. apply Z.pow_pos_nonneg; lia.
Qed.

Lemma to_Q_finite (s : bool) (m : positive) (e : Z) :
  to_Q (S754_finite s m e) =
  Some (Qred (if s then Qopp (magnitude m e) else magnitude m e)).
Proof. reflexivity. Qed.

Lemma magnitude_pos (m : positive) (e : Z) : (0 # 1 < magnitude m e)%Q.
Proof.
  unfold magnitude, Qlt.
  destruct (Z.leb_spec 0 e) as [He | He]; cbv [Qnum Qden]; [| lia].
  assert (0 < 2 ^ e) by (apply Z.pow_pos_nonneg; lia). nia.
Qed.

Lemma magnitude_below (m : positive) (e : Z) :
  (magnitude m e < 99 # 1)%Q <-> below99 m e.
Proof.
  unfold magnitude, below99, Qlt.
  destruct (Z.leb_spec 0 e) as [He | He]; cbv [Qnum Qden].
  - lia.
  - rewrite pow_pos_Zpos by lia. lia.
Qed.

(** The test of line 84 on a binary64 number compares its exact value. *)
Lemma float_between (f : f64) :
  valid_binary prec emax f = true ->
  int_lt_num 0 (PyFloat f) && num_lt_int (PyFloat f) 99 = true <->
  bmi_valid_spec (PyFloat f).
Proof.
  intros Hv. cbn [int_lt_num num_lt_int bmi_valid_spec].
  change (float_of_int 0) with (S754_zero false).
  destruct f as [s | s | | s m e].
  - split; [discriminate |]. intros (v & Hq & H0 & _).
    assert (Hq' : (0 # 1)%Q = v) by (cbn [to_Q] in Hq; congruence).
    rewrite <- Hq' in H0. discriminate H0.
  - split; [| intros (v & Hq & _); discriminate Hq].
    destruct s; discriminate.
  - split; [discriminate | intros (v & Hq & _); discriminate Hq].
  - cbn [valid_binary] in Hv. rewrite to_Q_finite. destruct s.
    + split; [discriminate |]. intros (v & Hq & H0 & _). exfalso.
      assert (Hq' : Qred (- magnitude m e) = v) by congruence.
      rewrite <- Hq' in H0. apply (proj1 (Qred_lt_r _ _)) in H0.
      pose proof (magnitude_pos m e) as Hp.
      apply (Qlt_irrefl (0 # 1)).
      apply (Qlt_trans _ (- magnitude m e)%Q); [exact H0 |].
      apply (Qopp_lt_compat (0 # 1) (magnitude m e)) in Hp. exact Hp.
    + change (flt (S754_zero false) (S754_finite false m e)) with true.
      cbn [andb]. rewrite (flt_99 m e Hv), <- magnitude_below.
      split.
      * intros H. eexists. split; [reflexivity |].
        rewrite Qred_lt_l, Qred_lt_r.
        split; [apply magnitude_pos | exact H].
      * intros (v & Hq & _ & H99).
        assert (Hq' : Qred (magnitude m e) = v) by congruence.
        rewrite <- Hq' in H99.
        apply (proj1 (Qred_lt_l _ _)) in H99. exact H99.
Qed.

Lemma accept_spec (education income : Z) (bmi : num) (y : Z) :
  well_formed bmi ->
  accept education income bmi y = true <->
  education < 9 /\ income < 9 /\ bmi_valid_spec bmi /\ y <> -1.
Proof.
  intros Hwf. unfold accept.
  rewrite !andb_true_iff, negb_true_iff, !Z.ltb_lt, Z.eqb_neq.
  rewrite <- andb_true_iff.
  assert (Hb : int_lt_num 0 bmi && num_lt_int bmi 99 = true <->
               bmi_valid_spec bmi).
  { destruct bmi as [j | f]; [| apply float_between, Hwf].
    cbn [int_lt_num num_lt_int bmi_valid_spec].
    rewrite andb_true_iff, !Z.ltb_lt. reflexivity. }
  rewrite Hb. tauto.
Qed.

Section Orchestrator.
Variable np : numpy.

Lemma fieldDict_known (c : Z) :
  11 <= c <= 14 ->
  exists fields, getitem fieldDict c = Ok (Some fields).
Proof.
  intros H.
  assert (c = 11 \/ c = 12 \/ c = 13 \/ c = 14) as [-> | [-> | [-> | ->]]]
    by lia; eexists; reflexivity.
Qed.

Lemma fieldDict_unknown (c : Z) :
  14 < c -> getitem fieldDict c = Raise KeyError.
Proof.
  intros H. unfold fieldDict.
  let d := eval vm_compute in fieldDictBuild in change fieldDictBuild with d.
  cbn [getitem].
  repeat match goal with
         | |- context [?k =? c] => replace (k =? c) with false by lia
         end.
  reflexivity.
Qed.

Lemma select_year_eq (filename : string) (g : globals) :
  select_year filename g =
  match parse_int (slice filename 6 8) with
  | None => (Raise ValueError, g)
  | Some c =>
      if c <? 11 then (Raise ZeroDivisionError, g)
      else match getitem fieldDict c with
           | Ok (Some f) => (Ok (c, f), printed [CStr filename] g)
           | Ok None => (Raise TypeError, printed [CStr filename] g)
           | Raise e => (Raise e, printed [CStr filename] g)
           end
  end.
Proof.
  unfold select_year, bind, lift, int.
  destruct (parse_int (slice filename 6 8)) as [c |]; [| reflexivity].
  destruct (c <? 11); [reflexivity |].
  unfold ret, print, printed.
  destruct (getitem fieldDict c) as [[f |] | e]; reflexivity.
Qed.

Lemma process_file_eq (filename : string) (file : archive) (g : globals) :
  process_file np (filename, file) g =
  match parse_int (slice filename 6 8) with
  | None => (Ok tt, g)
  | Some c =>
      if c <? 11 then (Ok tt, g)
      else match getitem fieldDict c with
           | Ok (Some f) =>
               process_records np f c file (printed [CStr filename] g)
           | Ok None => (Raise TypeError, printed [CStr filename] g)
           | Raise KeyError => (Raise KeyError, printed [CStr filename] g)
           | Raise e =>
               try_except [ValueError; ZeroDivisionError] (raise e)
                 (printed [CStr filename] g)
           end
  end.
Proof.
  unfold process_file, process_records, try_except.
  unfold bind at 1. rewrite select_year_eq.
  destruct (parse_int (slice filename 6 8)) as [c |]; [| reflexivity].
  destruct (c <? 11); [reflexivity |].
  destruct (getitem fieldDict c) as [[f |] | e]; try reflexivity.
  destruct e; reflexivity.
Qed.

Lemma for_each_cons {X} (body : X -> M unit) (x : X) (t : list X)
  (g : globals) :
  for_each (x :: t) body g =
  match body x g with
  | (Ok _, g') => for_each t body g'
  | (Raise e, g') => (Raise e, g')
  end.
Proof. reflexivity. Qed.

(** A loop stops at the first element whose body raises. *)
Lemma for_each_raise {X} (body : X -> M unit) (bad : X) (e : exn)
  (post : list X) :
  (forall g, body bad g = (Raise e, g)) ->
  forall pre g,
    for_each (pre ++ bad :: post)%list body g =
    match for_each pre body g with
    | (Ok _, g') => (Raise e, g')
    | (Raise e', g') => (Raise e', g')
    end.
Proof.
  intros Hbad pre. induction pre as [| x pre IH]; intros g.
  - cbn [List.app]. rewrite for_each_cons, Hbad. reflexivity.
  - cbn [List.app]. rewrite !for_each_cons.
    destruct (body x g) as [[u | e'] g']; [apply IH | reflexivity].
Qed.

Lemma process_record_decode_error (fields : layout) (c : Z)
  (record : string) (e : exn) (g : globals) :
  decode fields c record = Raise e ->
  process_record np fields c record g = (Raise e, g).
Proof.
  intros H. unfold process_record, bind, lift. rewrite H. reflexivity.
Qed.

Lemma open_single_member (m : string) (records : list string) :
  open_reader (Zip [(m, records)]) = Ok (records, None).
Proof. reflexivity. Qed.

(** A reader that is not damaged is a loop over its lines. *)
Lemma for_reader_complete (lines : list string) (body : string -> M unit)
  (g : globals) :
  for_reader (lines, None) body g = for_each lines body g.
Proof.
  unfold for_reader, bind, ret. cbn [fst snd].
  destruct (for_each lines body g) as [[[] | e] g']; reflexivity.
Qed.

(** The records of a one-member archive that is read to its end. *)
Lemma process_records_single (fields : layout) (c : Z) (m : string)
  (records : list string) (g : globals) :
  process_records np fields c (Zip [(m, records)]) g =
  try_except [ValueError; ZeroDivisionError]
    (for_each records (process_record np fields c)) g.
Proof.
  unfold process_records, try_except, bind, lift.
  rewrite open_single_member, for_reader_complete. reflexivity.
Qed.

Lemma open_not_single (members : list (string * list string)) :
  List.length members <> 1%nat ->
  open_reader (Zip members) = Raise AssertionError.
Proof.
  intros H. unfold open_reader, open_member.
  replace (Z.of_nat (List.length members) =? 1) with false by lia.
  reflexivity.
Qed.

(** C8: the year code is the integer parsed from [filename[6:8]]; the
    file is skipped, leaving the globals as they are, when that
    substring does not parse or the code is below 11; a file with a
    code from 11 to 14 prints its name and goes on to its records; a
    code above 14 has no table entry and raises [KeyError]. *)
Theorem year_code_selection (filename : string) (file : archive)
  (g : globals) :
  match parse_int (slice filename 6 8) with
  | None => process_file np (filename, file) g = (Ok tt, g)
  | Some c =>
      if c <? 11 then process_file np (filename, file) g = (Ok tt, g)
      else if c <=? 14 then
        exists fields,
          getitem fieldDict c = Ok (Some fields)
          /\ process_file np (filename, file) g =
             process_records np fields c file (printed [CStr filename] g)
      else
        process_file np (filename, file) g =
        (Raise KeyError, printed [CStr filename] g)
  end.
Proof.
  rewrite process_file_eq.
  destruct (parse_int (slice filename 6 8)) as [c |]; [| reflexivity].
  destruct (Z.ltb_spec c 11) as [Hlt | Hge]; [reflexivity |].
  destruct (Z.leb_spec c 14) as [Hle | Hgt].
  - destruct (fieldDict_known c) as [fields Hf]; [lia |].
    exists fields. rewrite Hf. split; reflexivity.
  - rewrite fieldDict_unknown by lia. reflexivity.
Qed.

(** C2: a selected file whose archive does not hold exactly one member
    fails the assertion of line 66, which the handler of line 106 does
    not catch: the file loop and the whole script stop there with
    [AssertionError], the remaining files are not read, no summary is
    printed, and the accumulator is as it was before the file. *)
Theorem archive_member_count (filename : string)
  (members : list (string * list string))
  (rest : list (string * archive)) (g : globals) (c : Z) :
  parse_int (slice filename 6 8) = Some c ->
  11 <= c <= 14 ->
  List.length members <> 1%nat ->
  file_loop np ((filename, Zip members) :: rest) g =
    (Raise AssertionError, printed [CStr filename] g)
  /\ main np ((filename, Zip members) :: rest) g =
    (Raise AssertionError, printed [CStr filename] g)
  /\ g_acc (snd (file_loop np ((filename, Zip members) :: rest) g)) =
     g_acc g.
Proof.
  intros Hc Hsel Hlen.
  assert (Hfile : process_file np (filename, Zip members) g =
                  (Raise AssertionError, printed [CStr filename] g)).
  { rewrite process_file_eq, Hc.
    replace (c <? 11) with false by lia.
    destruct (fieldDict_known c Hsel) as [fields ->].
    unfold process_records, try_except, bind, lift.
    rewrite (open_not_single members Hlen). reflexivity. }
  assert (Hloop : file_loop np ((filename, Zip members) :: rest) g =
                  (Raise AssertionError, printed [CStr filename] g)).
  { unfold file_loop. rewrite for_each_cons, Hfile. reflexivity. }
  split; [exact Hloop | split].
  - unfold main, bind. rewrite Hloop. reflexivity.
  - rewrite Hloop. reflexivity.
Qed.

(** C1: when a field of a record does not parse, the [ValueError] is
    caught by the handler of the file, not of the record: the record
    and every later record of the file are skipped, what was
    accumulated before stays, and the loop goes on with the next file,
    exactly as if the file had ended just before that record. *)
Theorem decode_error_ends_file (filename m : string)
  (pre post : list string) (bad : string)
  (rest : list (string * archive)) (g : globals)
  (c : Z) (fields : layout) :
  parse_int (slice filename 6 8) = Some c ->
  getitem fieldDict c = Ok (Some fields) ->
  decode fields c bad = Raise ValueError ->
  file_loop np ((filename, Zip [(m, (pre ++ bad :: post)%list)]) :: rest) g =
  file_loop np ((filename, Zip [(m, pre)]) :: rest) g.
Proof.
  intros Hc Hf Hbad. unfold file_loop.
  rewrite !for_each_cons, !process_file_eq, Hc.
  destruct (c <? 11); [reflexivity |].
  rewrite Hf, !process_records_single. unfold try_except.
  rewrite (for_each_raise (process_record np fields c) bad ValueError post)
    by (intros g'; apply process_record_decode_error, Hbad).
  destruct (for_each pre (process_record np fields c)
              (printed [CStr filename] g)) as [[[] | e] g'];
    reflexivity.
Qed.

Lemma validate_accepted education income bmi y g :
  accept education income bmi y = true ->
  g_acc (snd (validate_accumulate np education income bmi y g)) =
  accumulate64 (g_acc g)
    [float_of_int 1; float_of_int income; float_of_int education;
     to_float bmi] y.
Proof.
  intros H. unfold validate_accumulate, try_except, bind, get, put, ret, raise.
  rewrite H. cbn [g_acc]. destruct (_ && _); reflexivity.
Qed.

Lemma validate_rejected education income bmi y g :
  accept education income bmi y = false ->
  validate_accumulate np education income bmi y g = (Ok tt, g).
Proof.
  intros H. unfold validate_accumulate, try_except, bind, raise.
  rewrite H. reflexivity.
Qed.

Lemma validate_never_raises education income bmi y g :
  fst (validate_accumulate np education income bmi y g) = Ok tt.
Proof.
  unfold validate_accumulate, try_except, bind, get, put, ret, raise, print.
  destruct (accept education income bmi y); [| reflexivity].
  cbn [g_acc]. destruct (_ && _); reflexivity.
Qed.

(** C3: the inner [try] never raises.  When education < 9, income < 9,
    0 < bmi < 99 (on the exact value of the number) and health is not
    -1, the observation is accumulated: n grows by one, [sumSqrs] by the
    square of the health rating, each entry of [z] by the product of the
    entry of x = (1, income, education, bmi) and the health rating, and
    each entry of [A] by the product of two entries of x.  When one of
    the four conditions fails, the observation is rejected and all the
    globals, and so [A], [z], [sumSqrs] and n, stay as they were. *)
Theorem validity_filter (education income : Z) (bmi : num) (y : Z)
  (g : globals) :
  well_formed bmi ->
  shaped 4 (g_acc g) ->
  let x := [float_of_int 1; float_of_int income; float_of_int education;
            to_float bmi] in
  let s := g_acc g in
  let s' := g_acc (snd (validate_accumulate np education income bmi y g)) in
  fst (validate_accumulate np education income bmi y g) = Ok tt
  /\ (education < 9 /\ income < 9 /\ bmi_valid_spec bmi /\ y <> -1 ->
      n s' = n s + 1
      /\ sumSqrs s' = sumSqrs s + y * y
      /\ (forall i, (i < 4)%nat ->
            nth i (z s') S754_nan =
            fadd (nth i (z s) S754_nan)
                 (fmul (nth i x S754_nan) (float_of_int y)))
      /\ (forall i j, (i < 4)%nat -> (j < 4)%nat ->
            nth j (nth i (A s') []) S754_nan =
            fadd (nth j (nth i (A s) []) S754_nan)
                 (fmul (nth i x S754_nan) (nth j x S754_nan)))
      /\ shaped 4 s')
  /\ (~ (education < 9 /\ income < 9 /\ bmi_valid_spec bmi /\ y <> -1) ->
      snd (validate_accumulate np education income bmi y g) = g).
Proof.
  intros Hwf Hshape. cbv zeta.
  split; [apply validate_never_raises | split].
  - intros Hok. apply (accept_spec _ _ _ _ Hwf) in Hok.
    rewrite (validate_accepted _ _ _ _ g Hok).
    destruct (g_acc g) as [A0 z0 ss nn]. destruct Hshape as (HA & Hrows & Hz).
    cbn [A z] in HA, Hrows, Hz.
    do 5 (destruct z0 as [| ? z0]; try discriminate Hz).
    do 5 (destruct A0 as [| ? A0]; try discriminate HA).
    repeat match goal with
           | H : Forall _ (_ :: _) |- _ => inversion H; clear H; subst
           end.
    repeat match goal with
           | H : List.length ?r = 4%nat |- _ =>
               do 5 (destruct r as [| ? r]; try discriminate H); clear H
           end.
    unfold accumulate64, accumulate, outer, scale.
    cbn [A z sumSqrs n map madd vadd].
    split; [reflexivity | split; [lia | split; [| split]]].
    + intros i Hi.
      do 4 (destruct i as [| i]; [reflexivity |]). lia.
    + intros i j Hi Hj.
      do 4 (destruct i as [| i];
            [do 4 (destruct j as [| j]; [reflexivity |]); lia |]). lia.
    + repeat split; repeat constructor.
  - intros Hno.
    destruct (accept education income bmi y) eqn:Hacc.
    + exfalso. apply Hno, (accept_spec _ _ _ _ Hwf), Hacc.
    + rewrite (validate_rejected _ _ _ _ g Hacc). reflexivity.
Qed.
End Orchestrator.

(** ** The estimate of the final report *)

Section Estimate.
Variable np : numpy.
Local Open Scope list_scope.

Lemma preserves_bind P {X Y} (m : M X) (k : X -> M Y) :
  preserves P m -> (forall x, preserves P (k x)) -> preserves P (bind m k).
Proof.
  intros Hm Hk g Hg. unfold bind. specialize (Hm g Hg).
  destruct (m g) as [[x | e] g']; cbn [snd] in *; [| exact Hm].
  apply Hk, Hm.
Qed.

Lemma preserves_lift P {X} (r : res X) : preserves P (lift r).
Proof. intros g Hg. exact Hg. Qed.

Lemma preserves_try P handled (body : M unit) :
  preserves P body -> preserves P (try_except handled body).
Proof.
  intros Hb g Hg. unfold try_except. specialize (Hb g Hg).
  destruct (body g) as [[u | e] g']; cbn [snd] in *; [exact Hb |].
  destruct (existsb (exn_eqb e) handled); exact Hb.
Qed.

Lemma preserves_for_each P {X} (body : X -> M unit) (l : list X) :
  (forall x, preserves P (body x)) -> preserves P (for_each l body).
Proof.
  intros Hb. induction l as [| x l IH].
  - intros g Hg. exact Hg.
  - cbn [for_each]. apply preserves_bind; [apply Hb | intros _; exact IH].
Qed.

Lemma preserves_for_reader P (body : string -> M unit) (r : reader) :
  (forall x, preserves P (body x)) -> preserves P (for_reader r body).
Proof.
  intros Hb. unfold for_reader.
  apply preserves_bind; [apply preserves_for_each, Hb | intros _].
  destruct (snd r); intros g Hg; exact Hg.
Qed.

Lemma accumulated_snoc obs x y :
  accumulated (obs ++ [(x, y)]) = accumulate64 (accumulated obs) x y.
Proof.
  unfold accumulated, accumulate_all. rewrite fold_left_app. reflexivity.
Qed.

Lemma accumulated_count obs :
  n (accumulated obs) = Z.of_nat (List.length obs).
Proof.
  induction obs as [| [x y] obs IH] using rev_ind; [reflexivity |].
  rewrite accumulated_snoc, length_app. cbn [accumulate64 accumulate n].
  unfold accumulate64, accumulate. cbn [n List.length]. lia.
Qed.

Lemma last_report_at_multiple obs :
  let count := Z.of_nat (List.length obs) in
  count mod 10000 = 0 -> count <> 0 ->
  last_report np obs = Some (estimate np (accumulated obs)).
Proof.
  intros count Hmod Hnz. unfold last_report. fold count.
  assert (Hcount : 10000 * (count / 10000) = count).
  { pose proof (Z.div_mod count 10000). lia. }
  assert (10000 <= count).
  { assert (0 <= count) by (unfold count; lia).
    pose proof (Z.div_mod count 10000).
    assert (0 < count / 10000) by lia. lia. }
  replace (count <? 10000) with false by lia.
  rewrite Hcount. unfold count. rewrite Nat2Z.id, firstn_all. reflexivity.
Qed.

Lemma last_report_between obs o :
  Z.of_nat (List.length (obs ++ [o])) mod 10000 <> 0 ->
  last_report np (obs ++ [o]) = last_report np obs.
Proof.
  rewrite length_app. cbn [List.length]. intros Hmod.
  unfold last_report. rewrite length_app. cbn [List.length].
  set (k := Z.of_nat (List.length obs)).
  replace (Z.of_nat (List.length obs + 1)) with (k + 1) in * by lia.
  assert (0 <= k) by (unfold k; lia).
  destruct (Z.ltb_spec (k + 1) 10000) as [Hlt | Hge].
  { replace (k <? 10000) with true by lia. reflexivity. }
  assert (Hk : 10000 <= k).
  { destruct (Z.eq_dec k 9999) as [-> | ]; [| lia].
    exfalso. apply Hmod. reflexivity. }
  replace (k <? 10000) with false by lia.
  assert (Hdiv : (k + 1) / 10000 = k / 10000).
  { pose proof (Z.div_mod k 10000). pose proof (Z.div_mod (k + 1) 10000).
    pose proof (Z.mod_pos_bound k 10000).
    pose proof (Z.mod_pos_bound (k + 1) 10000). nia. }
  rewrite Hdiv, firstn_app.
  assert (Hle : 10000 * (k / 10000) <= k).
  { pose proof (Z.div_mod k 10000). pose proof (Z.mod_pos_bound k 10000).
    lia. }
  replace (Z.to_nat (10000 * (k / 10000)) - List.length obs)%nat
    with 0%nat
    by (unfold k in Hle |- *; generalize dependent (Z.of_nat (List.length obs) / 10000); intros; lia).
  cbn [firstn]. rewrite app_nil_r. reflexivity.
Qed.

Lemma tracked_print line : preserves (tracked np) (print line).
Proof. intros g [obs [Ha [Hb Hf]]]. exists obs. repeat split; assumption. Qed.

Lemma tracked_validate education income bmi y :
  preserves (tracked np) (validate_accumulate np education income bmi y).
Proof.
  intros g [obs [Ha [Hb Hf]]].
  unfold validate_accumulate, try_except, bind, get, put, ret, raise, print.
  destruct (accept education income bmi y) eqn:Hacpt; cbn [g_acc snd];
    [| exists obs; repeat split; assumption].
  set (x := [float_of_int 1; float_of_int income; float_of_int education;
             to_float bmi]).
  assert (Hacc : accumulate64 (g_acc g) x y = accumulated (obs ++ [(x, y)]))
    by (rewrite accumulated_snoc, Ha; reflexivity).
  assert (Hn : n (accumulate64 (g_acc g) x y) =
               Z.of_nat (List.length (obs ++ [(x, y)])))
    by (rewrite Hacc; apply accumulated_count).
  assert (Hf' : Forall accepted_obs (obs ++ [(x, y)])).
  { apply Forall_app. split; [exact Hf |]. constructor; [| constructor].
    exists education, income, bmi. split; [exact Hacpt | reflexivity]. }
  exists (obs ++ [(x, y)]).
  destruct (Z.eqb_spec (n (accumulate64 (g_acc g) x y) mod 10000) 0)
    as [Hm | Hm]; cbn [andb].
  - destruct (Z.eqb_spec (n (accumulate64 (g_acc g) x y)) 0) as [Hz | Hz];
      cbn [negb snd].
    + exfalso. rewrite Hn, length_app in Hz. cbn [List.length] in Hz. lia.
    + split; [| split]; cbn [g_acc g_b]; [exact Hacc | | exact Hf'].
      rewrite last_report_at_multiple by (rewrite <- Hn; assumption).
      rewrite Hacc. reflexivity.
  - cbn [snd]. split; [| split]; cbn [g_acc g_b]; [exact Hacc | | exact Hf'].
    rewrite last_report_between by (rewrite <- Hn; exact Hm). exact Hb.
Qed.

Lemma tracked_record fields c record :
  preserves (tracked np) (process_record np fields c record).
Proof.
  unfold process_record. apply preserves_bind; [apply preserves_lift |].
  intros [[[education income] bmi] y]. apply tracked_validate.
Qed.

Lemma tracked_file entry : preserves (tracked np) (process_file np entry).
Proof.
  destruct entry as [filename file]. unfold process_file.
  apply preserves_try, preserves_bind.
  - unfold select_year.
    apply preserves_bind; [apply preserves_lift | intros c].
    apply preserves_bind.
    { destruct (c <? 11); intros g Hg; exact Hg. }
    intros _. apply preserves_bind; [apply tracked_print | intros _].
    apply preserves_bind; [apply preserves_lift | intros [f |]];
      intros g Hg; exact Hg.
  - intros [c fields].
    apply preserves_bind; [apply preserves_lift | intros reader].
    apply preserves_for_reader. intros record. apply tracked_record.
Qed.

Lemma tracked_init : tracks np init [].
Proof. split; [reflexivity | split; [reflexivity | constructor]]. Qed.

End Estimate.

(** ** The final report *)

Section Finalization.
Variable np : numpy.
Local Open Scope list_scope.

Lemma truediv_int_above (k : Z) :
  4 < k -> truediv_int (k - 1) (k - q) = Ok (round_quot false (k - 1) (k - 4)).
Proof.
  intros H. unfold truediv_int, q.
  replace (k - 4 =? 0) with false by lia.
  replace (k - 1 <? 0) with false by lia.
  replace (k - 4 <? 0) with false by lia.
  rewrite !Z.abs_eq by lia. reflexivity.
Qed.

Lemma finalize_bound (g : globals) (b : list f64) :
  g_b g = Some b -> 4 < n (g_acc g) ->
  finalize np g =
  (Ok tt, {| g_acc := g_acc g; g_b := g_b g;
             g_stdout := g_stdout g ++ report np (g_acc g) b |}).
Proof.
  intros Hb Hn. destruct g as [s gb out]. cbn [g_acc g_b g_stdout] in *.
  subst gb. unfold finalize, bind, get, lift, ret, print.
  cbn [g_acc g_b g_stdout]. unfold truediv_float_int.
  replace (n s - q =? 0) with false by (unfold q; lia).
  rewrite (truediv_int_above _ Hn). cbn [g_acc g_b g_stdout].
  unfold report, adjusted_r_squared_spec, residual_spec, total_spec,
    ybar_spec.
  rewrite <- app_assoc. reflexivity.
Qed.

Lemma finalize_unbound (g : globals) :
  g_b g = None -> finalize np g = (Raise NameError, g).
Proof.
  intros Hb. unfold finalize, bind, get, raise. rewrite Hb. reflexivity.
Qed.

(** C5: the finalization after the file loop of any run.  When [b] is
    bound, which it is exactly from the 10,000th accepted observation
    on, the residual variance is [(sumSqrs - b'z) / (n - 4)] and the
    header row is printed and then n, the coefficients rounded to 3
    places and the adjusted R squared
    [1 - ((n-1)/(n-4)) * (sumSqrs - b'z) / (sumSqrs - n * ybar^2)]
    rounded to 3 places, as the specification says.  With fewer than 10,000
    accepted observations [b] was never assigned: the finalization
    raises [NameError] and prints nothing, whatever n and the sums are,
    also for n > 4 and a denominator that is not zero. *)
Theorem finalization_report (fileList : list (string * archive)) :
  let g := snd (file_loop np fileList init) in
  match g_b g with
  | Some b =>
      10000 <= n (g_acc g)
      /\ truediv_float_int (residual_spec np (g_acc g) b) (n (g_acc g) - q) =
         Ok (residual_variance_spec np (g_acc g) b)
      /\ finalize np g =
         (Ok tt, {| g_acc := g_acc g; g_b := g_b g;
                    g_stdout := g_stdout g ++ report np (g_acc g) b |})
  | None =>
      n (g_acc g) < 10000 /\ finalize np g = (Raise NameError, g)
  end.
Proof.
  cbv zeta.
  destruct (preserves_for_each (tracked np) (process_file np) fileList
              (tracked_file np) init (ex_intro _ [] (tracked_init np)))
    as [obs (Ha & Hb & _)].
  fold (file_loop np fileList) in Ha, Hb.
  set (g := snd (file_loop np fileList init)) in *.
  assert (Hn : n (g_acc g) = Z.of_nat (List.length obs))
    by (rewrite Ha; apply accumulated_count).
  unfold last_report in Hb. rewrite <- Hn in Hb.
  destruct (Z.ltb_spec (n (g_acc g)) 10000) as [Hlt | Hge]; rewrite Hb.
  - split; [exact Hlt | apply finalize_unbound, Hb].
  - split; [exact Hge | split].
    + unfold truediv_float_int, residual_variance_spec, q.
      replace (n (g_acc g) - 4 =? 0) with false by lia. reflexivity.
    + rewrite <- Hb. apply finalize_bound; [exact Hb | lia].
Qed.
End Finalization.

(** ** Order of the observations *)

Section Order.
Context {F : Type}.
Variable add mul : F -> F -> F.
Variable of_int : Z -> F.
Local Open Scope list_scope.


Lemma accumulate_all_cons s o l :
  accumulate_all add mul of_int s (o :: l) = accumulate_all add mul of_int (accumulate add mul of_int s (fst o) (snd o)) l.
Proof. reflexivity. Qed.

Lemma count_accumulate_all l : forall s,
  n (accumulate_all add mul of_int s l) = n s + Z.of_nat (List.length l).
Proof.
  induction l as [| o l IH]; intros s.
  - cbn. lia.
  - rewrite accumulate_all_cons, IH. cbn [accumulate n List.length]. lia.
Qed.

Lemma squares_accumulate_all l : forall s,
  sumSqrs (accumulate_all add mul of_int s l) =
  sumSqrs s + fold_right (fun o t => snd o ^ 2 + t) 0 l.
Proof.
  induction l as [| o l IH]; intros s.
  - cbn. lia.
  - rewrite accumulate_all_cons, IH.
    cbn [accumulate sumSqrs fold_right]. lia.
Qed.

Lemma squares_permutation (l l' : list (list F * Z)) :
  Permutation l l' ->
  fold_right (fun o t => snd o ^ 2 + t) 0 l =
  fold_right (fun o t => snd o ^ 2 + t) 0 l'.
Proof.
  induction 1 as [| o l l' _ IH | o o' l | l l' l'' _ IH1 _ IH2];
    cbn [fold_right]; lia.
Qed.

Section Exact.
Hypothesis add_swap : forall a b c, add (add a b) c = add (add a c) b.

Lemma vadd_swap (u v w : list F) :
  vadd add (vadd add u v) w = vadd add (vadd add u w) v.
Proof.
  revert v w. induction u as [| a u IH]; intros [| b v] [| c w];
    cbn [vadd]; try reflexivity.
  rewrite add_swap, IH. reflexivity.
Qed.

Lemma madd_swap (U V W : list (list F)) :
  madd add (madd add U V) W = madd add (madd add U W) V.
Proof.
  revert V W. induction U as [| a U IH]; intros [| b V] [| c W];
    cbn [madd]; try reflexivity.
  rewrite vadd_swap, IH. reflexivity.
Qed.

Lemma accumulate_swap s x y x' y' :
  accumulate add mul of_int (accumulate add mul of_int s x y) x' y' = accumulate add mul of_int (accumulate add mul of_int s x' y') x y.
Proof.
  unfold accumulate. cbn [A z sumSqrs n].
  rewrite madd_swap, vadd_swap. f_equal; lia.
Qed.

Lemma accumulate_all_permutation (l l' : list (list F * Z)) :
  Permutation l l' -> forall s, accumulate_all add mul of_int s l = accumulate_all add mul of_int s l'.
Proof.
  induction 1 as [| o l l' _ IH | o o' l | l l' l'' _ IH1 _ IH2];
    intros s.
  - reflexivity.
  - rewrite !accumulate_all_cons. apply IH.
  - rewrite !accumulate_all_cons, accumulate_swap. reflexivity.
  - rewrite IH1. apply IH2.
Qed.
End Exact.

(** C9: whatever the order of the observations, the count [n] and the
    integer sum [sumSqrs] are the same; [A] and [z] are the same too
    when the additions of the scalars can be exchanged, as they can in
    exact arithmetic. *)
Theorem accumulate_order (s : acc F) (l l' : list (list F * Z)) :
  Permutation l l' ->
  n (accumulate_all add mul of_int s l) =
    n (accumulate_all add mul of_int s l')
  /\ sumSqrs (accumulate_all add mul of_int s l) =
     sumSqrs (accumulate_all add mul of_int s l')
  /\ ((forall a b c, add (add a b) c = add (add a c) b) ->
      accumulate_all add mul of_int s l =
      accumulate_all add mul of_int s l').
Proof.
  intros HP. split; [| split].
  - rewrite !count_accumulate_all, (Permutation_length HP). reflexivity.
  - rewrite !squares_accumulate_all, (squares_permutation l l' HP).
    reflexivity.
  - intros Hswap. apply accumulate_all_permutation; assumption.
Qed.
End Order.

(** ** Concrete runs *)

(** C1, as the specification words it, fails: after a record whose
    education field does not parse, the valid record that follows is not
    accumulated, so the accumulator differs from that of the file
    without the malformed record. *)
Lemma decode_error_skips_rest :
  decode layout11 11 malformed11 = Raise ValueError
  /\ g_acc (snd (file_loop np0 [file11 [malformed11; good11]] init)) <>
     g_acc (snd (file_loop np0 [file11 [good11]] init)).
Proof.
  split; [vm_compute; reflexivity |].
  intros H. apply (f_equal n) in H. vm_compute in H. discriminate H.
Qed.

Lemma decode_error_ends_file_witness :
  file_loop np0 [file11 ([good11] ++ malformed11 :: [good11])%list] init =
  file_loop np0 [file11 [good11]] init.
Proof.
  apply (decode_error_ends_file np0 "LLCP2011.zip" "LLCP2011.ASC"
           [good11] [good11] malformed11 [] init 11 layout11);
    vm_compute; reflexivity.
Defined.

(** C2, as the specification words it, fails: with an archive of two
    members the file loop does not end normally, and the file after it
    is never read. *)
Lemma two_member_archive_stops_run :
  ~ (fst (file_loop np0
            [("LLCP2011.zip", Zip [("a", [good11]); ("b", [good11])]);
             file11 [good11]] init) = Ok tt
     /\ g_acc (snd (file_loop np0
            [("LLCP2011.zip", Zip [("a", [good11]); ("b", [good11])]);
             file11 [good11]] init)) =
        g_acc (snd (file_loop np0 [file11 [good11]] init))).
Proof.
  intros [H _]. vm_compute in H. discriminate H.
Qed.

Lemma archive_member_count_witness :
  file_loop np0
    [("LLCP2011.zip", Zip [("a", [good11]); ("b", [good11])]);
     file11 [good11]] init =
  (Raise AssertionError, printed [CStr "LLCP2011.zip"] init).
Proof.
  apply (archive_member_count np0 "LLCP2011.zip"
           [("a", [good11]); ("b", [good11])] [file11 [good11]] init 11).
  - vm_compute; reflexivity.
  - lia.
  - cbn [List.length]. lia.
Defined.

Lemma validity_filter_witness :
  decode layout11 11 good11 = Ok (4, 5, PyFloat (float_of_int 25), 3)
  /\ n (g_acc (snd (validate_accumulate np0 4 5 (PyFloat (float_of_int 25)) 3
                      init))) = 1.
Proof.
  split; [vm_compute; reflexivity |].
  destruct (validity_filter np0 4 5 (PyFloat (float_of_int 25)) 3 init)
    as (_ & H & _).
  - vm_compute; reflexivity.
  - repeat split; repeat constructor.
  - apply H. repeat split; try lia.
    eexists. split; [vm_compute; reflexivity | split; reflexivity].
Defined.

(** An input on which the finalization does not do what the
    specification says of it: an archive of five valid records.  All
    five are accumulated, so that n = 5 > 4, and [sumSqrs - n * ybar^2]
    is 55 - 5 * 9 = 10, not zero; but no estimate was ever computed, and
    the script ends with [NameError] after printing only the name of
    the file. *)
Lemma finalization_without_estimate :
  let g := snd (file_loop np0 [file11 five_records] init) in
  n (g_acc g) = 5
  /\ total_spec np0 (g_acc g) = float_of_int 10
  /\ is_zero (total_spec np0 (g_acc g)) = false
  /\ g_stdout g = [[CStr "LLCP2011.zip"]]
  /\ run np0 [file11 five_records] = (Raise NameError, g).
Proof. repeat split; vm_compute; reflexivity. Qed.

(** C8, as the specification words it, fails: the characters 7 and 8 of
    "LLCP2011.zip" do not parse, and yet the file is read and its record
    accumulated; and the code 15 is not before 2011, and yet the file
    does not go on to its records: the lookup raises [KeyError]. *)
Lemma year_code_counterexample :
  year_code_spec "LLCP2011.zip" = None
  /\ n (g_acc (snd (process_file np0 (file11 [good11]) init))) = 1
  /\ parse_int (slice "LLCP2015.zip" 6 8) = Some 15
  /\ process_file np0 ("LLCP2015.zip", Zip [("LLCP2015.ASC", [good11])]) init =
     (Raise KeyError, printed [CStr "LLCP2015.zip"] init).
Proof. repeat split; vm_compute; reflexivity. Qed.

(** C9, as the specification words it, fails: three accepted
    observations with BMI 0.1, 0.2 and 0.3 give two different binary64
    sums in [z] when accumulated in the two opposite orders. *)
Lemma binary64_order_counterexample :
  Permutation obs_up obs_down
  /\ forallb (fun s => match convertBMI s 11 with
                       | Ok v => accept 1 1 v 1
                       | Raise _ => false
                       end) ["0010"; "0020"; "0030"] = true
  /\ z (accumulated obs_up) <> z (accumulated obs_down).
Proof.
  split; [| split].
  - unfold obs_up, obs_down. apply Permutation_map.
    change ["0030"; "0020"; "0010"] with (rev ["0010"; "0020"; "0030"]).
    apply Permutation_rev.
  - vm_compute; reflexivity.
  - intros H. vm_compute in H. discriminate H.
Qed.

Lemma accumulate_order_witness :
  accumulateZ_all (zero_acc 0 2) [([1; 2], 3); ([4; 5], 6)] =
  accumulateZ_all (zero_acc 0 2) [([4; 5], 6); ([1; 2], 3)].
Proof.
  apply (accumulate_order Z.add Z.mul (fun i => i) (zero_acc 0 2)
           [([1; 2], 3); ([4; 5], 6)] [([4; 5], 6); ([1; 2], 3)]).
  - apply perm_swap.
  - intros a b c. lia.
Defined.

(** ** The field layout table *)

Lemma fieldDict_some (c : Z) (f : layout) :
  getitem fieldDictBuild c = Ok (Some f) -> 11 <= c <= 14 /\ ordered_layout f.
Proof.
  let d := eval vm_compute in fieldDictBuild in change fieldDictBuild with d.
  cbn [getitem].
  repeat match goal with
         | |- context [?k =? c] => destruct (Z.eqb_spec k c) as [<- | ?]
         end;
    intros H; inversion H; subst; clear H;
    (split; [lia | unfold ordered_layout; cbn; lia]).
Qed.

Lemma fieldDict_none (c : Z) :
  getitem fieldDictBuild c = Ok None -> 0 <= c <= 3.
Proof.
  let d := eval vm_compute in fieldDictBuild in change fieldDictBuild with d.
  cbn [getitem].
  repeat match goal with
         | |- context [?k =? c] => destruct (Z.eqb_spec k c) as [<- | ?]
         end;
    intros H; inversion H; lia.
Qed.

Lemma fieldDict_missing (c : Z) (e : exn) :
  getitem fieldDictBuild c = Raise e ->
  e = KeyError /\ (c < 0 \/ 3 < c < 11 \/ 14 < c).
Proof.
  let d := eval vm_compute in fieldDictBuild in change fieldDictBuild with d.
  cbn [getitem].
  repeat match goal with
         | |- context [?k =? c] => destruct (Z.eqb_spec k c) as [<- | ?]
         end;
    intros H; inversion H; split; [reflexivity | lia].
Qed.

(** X1: a lookup in the table built by [fieldDictBuild] gives a layout
    exactly for the keys 11 to 14, and each of these layouts has its
    columns in the order health rating, education, income (two columns),
    BMI (four columns); it gives [None] exactly for the keys 0 to 3; any
    other key raises [KeyError]. *)
Theorem fieldDict_lookup (k : Z) :
  match getitem fieldDictBuild k with
  | Ok (Some f) => 11 <= k <= 14 /\ ordered_layout f
  | Ok None => 0 <= k <= 3
  | Raise e => e = KeyError /\ (k < 0 \/ 3 < k < 11 \/ 14 < k)
  end.
Proof.
  destruct (getitem fieldDictBuild k) as [[f |] | e] eqn:H.
  - apply fieldDict_some, H.
  - apply fieldDict_none, H.
  - apply fieldDict_missing, H.
Qed.

(** ** The fields of a record *)

Lemma length_substring (s : string) : forall a m,
  (a + m <= String.length s)%nat -> String.length (substring a m s) = m.
Proof.
  induction s as [| c s IH]; intros a m H; cbn [String.length] in H.
  - assert (a = 0%nat) by lia. assert (m = 0%nat) by lia. subst. reflexivity.
  - destruct a as [| a]; cbn [substring].
    + destruct m as [| m]; [reflexivity |].
      cbn [String.length]. f_equal. apply IH. lia.
    + apply IH. lia.
Qed.

Lemma index_in_range (s : string) (i : Z) :
  0 <= i < len s ->
  exists c, index s i = Ok c /\ String.length c = 1%nat.
Proof.
  intros H. unfold index.
  replace (i <? 0) with false by lia.
  replace ((0 <=? i) && (i <? len s)) with true by lia.
  eexists. split; [reflexivity |].
  apply length_substring. unfold len in H. lia.
Qed.

Lemma index_past_end (s : string) (i : Z) :
  0 <= i -> len s <= i -> index s i = Raise IndexError.
Proof.
  intros H0 H. unfold index.
  replace (i <? 0) with false by lia.
  replace ((0 <=? i) && (i <? len s)) with false by lia.
  reflexivity.
Qed.

Lemma length_slice (s : string) (a b : Z) :
  0 <= a <= b -> b <= len s ->
  Z.of_nat (String.length (slice s a b)) = b - a.
Proof.
  intros Ha Hb. unfold slice, clamp.
  replace (a <? 0) with false by lia. replace (b <? 0) with false by lia.
  rewrite length_substring; unfold len in *; lia.
Qed.

(** X2: for a layout of the table and a record that reaches the last
    BMI column, the four substrings handed to the decoders exist and
    have the widths of the fields: one character for education and for
    the health rating, two for income, four for BMI. *)
Theorem field_widths (k : Z) (fields : layout) (record : string) :
  getitem fieldDictBuild k = Ok (Some fields) ->
  snd (bmi fields) <= len record ->
  (exists e, index record (education fields - 1) = Ok e
             /\ String.length e = 1%nat)
  /\ (exists h, index record (genhlth fields - 1) = Ok h
                /\ String.length h = 1%nat)
  /\ String.length
       (slice record (fst (income fields) - 1) (snd (income fields))) = 2%nat
  /\ String.length
       (slice record (fst (bmi fields) - 1) (snd (bmi fields))) = 4%nat.
Proof.
  intros Hk Hlen.
  destruct (fieldDict_some k fields Hk) as [_ (H1 & H2 & H3 & H4 & H5 & H6)].
  repeat split.
  - apply index_in_range. lia.
  - apply index_in_range. lia.
  - apply Nat2Z.inj. rewrite length_slice; lia.
  - apply Nat2Z.inj. rewrite length_slice; lia.
Qed.

(** ** Records and files that leave no trace, and records that stop the run *)

Section Loops.
Variable np : numpy.
Local Open Scope list_scope.

Lemma for_each_app {X} (body : X -> M unit) (l1 l2 : list X) (g : globals) :
  for_each (l1 ++ l2) body g =
  match for_each l1 body g with
  | (Ok _, g') => for_each l2 body g'
  | (Raise e, g') => (Raise e, g')
  end.
Proof.
  revert g. induction l1 as [| x l1 IH]; intros g; [reflexivity |].
  cbn [app]. rewrite !for_each_cons.
  destruct (body x g) as [[u | e] g']; [apply IH | reflexivity].
Qed.

(** A statement that ends normally without changing the globals can be
    left out of a loop. *)
Lemma for_each_skip {X} (body : X -> M unit) (x : X) (l1 l2 : list X) :
  (forall g, body x g = (Ok tt, g)) ->
  forall g, for_each (l1 ++ x :: l2) body g = for_each (l1 ++ l2) body g.
Proof.
  intros Hx g. rewrite !for_each_app.
  destruct (for_each l1 body g) as [[u | e] g']; [| reflexivity].
  rewrite for_each_cons, Hx. reflexivity.
Qed.

Lemma selected_file_eq (filename : string) (file : archive) (g : globals)
  (c : Z) (fields : layout) :
  parse_int (slice filename 6 8) = Some c ->
  getitem fieldDict c = Ok (Some fields) ->
  process_file np (filename, file) g =
  process_records np fields c file (printed [CStr filename] g).
Proof.
  intros Hc Hf. rewrite process_file_eq, Hc.
  destruct (fieldDict_some c fields Hf) as [Hsel _].
  replace (c <? 11) with false by lia. rewrite Hf. reflexivity.
Qed.

(** X3: a record that decodes but fails the validity test leaves no
    trace: the file loop ends with the same result and the same globals
    as on the archive without that record. *)
Theorem rejected_record_leaves_no_trace (filename m : string)
  (pre post : list string) (record : string)
  (rest : list (string * archive)) (g : globals) (c : Z) (fields : layout)
  (education income : Z) (bmi : num) (y : Z) :
  parse_int (slice filename 6 8) = Some c ->
  getitem fieldDict c = Ok (Some fields) ->
  decode fields c record = Ok (education, income, bmi, y) ->
  accept education income bmi y = false ->
  file_loop np ((filename, Zip [(m, pre ++ record :: post)]) :: rest) g =
  file_loop np ((filename, Zip [(m, pre ++ post)]) :: rest) g.
Proof.
  intros Hc Hf Hd Hrej. unfold file_loop.
  rewrite !for_each_cons, !(selected_file_eq _ _ _ c fields Hc Hf).
  rewrite !process_records_single. unfold try_except.
  rewrite (for_each_skip (process_record np fields c) record pre post);
    [reflexivity |].
  intros g'. unfold process_record, bind, lift. rewrite Hd.
  apply validate_rejected, Hrej.
Qed.

(** X4: a record that ends before the education column raises
    [IndexError], which no handler catches: the file loop and the whole
    script stop at that record, with the globals as the records before
    it left them; the later records and files are not read and no
    summary is printed. *)
Theorem short_record_stops_run (filename m : string)
  (pre post : list string) (record : string)
  (rest : list (string * archive)) (g g' : globals) (c : Z)
  (fields : layout) :
  parse_int (slice filename 6 8) = Some c ->
  getitem fieldDict c = Ok (Some fields) ->
  len record < education fields ->
  for_each pre (process_record np fields c) (printed [CStr filename] g) =
    (Ok tt, g') ->
  file_loop np ((filename, Zip [(m, pre ++ record :: post)]) :: rest) g =
    (Raise IndexError, g')
  /\ main np ((filename, Zip [(m, pre ++ record :: post)]) :: rest) g =
    (Raise IndexError, g').
Proof.
  intros Hc Hf Hshort Hpre.
  destruct (fieldDict_some c fields Hf) as [_ (H1 & H2 & _)].
  assert (Hd : decode fields c record = Raise IndexError).
  { unfold decode. destruct (income fields), (bmi fields).
    rewrite index_past_end by (unfold len in *; lia). reflexivity. }
  assert (Hloop : file_loop np
            ((filename, Zip [(m, pre ++ record :: post)]) :: rest) g =
            (Raise IndexError, g')).
  { unfold file_loop.
    rewrite for_each_cons, (selected_file_eq _ _ _ c fields Hc Hf).
    rewrite process_records_single. unfold try_except.
    rewrite (for_each_raise (process_record np fields c) record IndexError)
      by (intros g0; apply process_record_decode_error, Hd).
    rewrite Hpre. reflexivity. }
  split; [exact Hloop |].
  unfold main, bind. rewrite Hloop. reflexivity.
Qed.

(** X5: a selected file that is not a zip archive raises [BadZipFile],
    which the handler of the file does not catch: the run stops there,
    after printing the name of the file, with the accumulator
    unchanged. *)
Theorem not_an_archive_stops_run (filename : string)
  (rest : list (string * archive)) (g : globals) (c : Z) (fields : layout) :
  parse_int (slice filename 6 8) = Some c ->
  getitem fieldDict c = Ok (Some fields) ->
  main np ((filename, NotZip) :: rest) g =
    (Raise BadZipFile, printed [CStr filename] g).
Proof.
  intros Hc Hf. unfold main, bind, file_loop.
  rewrite for_each_cons, (selected_file_eq _ _ _ c fields Hc Hf).
  reflexivity.
Qed.

(** X17: an archive whose member cannot be read to its end.  The
    records that the reader yields before the failure are processed, and
    what they accumulated stays.  Then the exception of the library ends
    the file: when it is a [ValueError] or [ZeroDivisionError] the
    handler of the file catches it and the loop goes on with the next
    file; any other exception ends the loop and the script, with no
    summary printed. *)
Theorem damaged_member_ends_file (filename m : string)
  (lines : list string) (e : exn)
  (rest : list (string * archive)) (g g' : globals) (c : Z)
  (fields : layout) :
  parse_int (slice filename 6 8) = Some c ->
  getitem fieldDict c = Ok (Some fields) ->
  for_each lines (process_record np fields c) (printed [CStr filename] g) =
    (Ok tt, g') ->
  file_loop np ((filename, Damaged [(m, lines)] e) :: rest) g =
    (if existsb (exn_eqb e) [ValueError; ZeroDivisionError]
     then file_loop np rest g'
     else (Raise e, g'))
  /\ (existsb (exn_eqb e) [ValueError; ZeroDivisionError] = false ->
      main np ((filename, Damaged [(m, lines)] e) :: rest) g =
      (Raise e, g')).
Proof.
  intros Hc Hf Hlines.
  assert (Hloop : file_loop np
            ((filename, Damaged [(m, lines)] e) :: rest) g =
            (if existsb (exn_eqb e) [ValueError; ZeroDivisionError]
             then file_loop np rest g'
             else (Raise e, g'))).
  { unfold file_loop.
    rewrite for_each_cons, (selected_file_eq _ _ _ c fields Hc Hf).
    unfold process_records, try_except, bind at 1, lift.
    cbn [open_reader open_member List.length Z.of_nat Pos.of_succ_nat
         Z.eqb Pos.eqb assert rbind].
    unfold for_reader, bind. cbn [fst snd]. rewrite Hlines.
    unfold raise.
    destruct (existsb (exn_eqb e) [ValueError; ZeroDivisionError]);
      reflexivity. }
  split; [exact Hloop |].
  intros He. unfold main, bind. rewrite Hloop, He. reflexivity.
Qed.

Lemma unselected_file (filename : string) (file : archive) (g : globals) :
  selected filename = false ->
  process_file np (filename, file) g = (Ok tt, g).
Proof.
  unfold selected. intros H. rewrite process_file_eq.
  destruct (parse_int (slice filename 6 8)) as [c |]; [| reflexivity].
  replace (c <? 11) with true by lia. reflexivity.
Qed.

(** X6: the files whose names are not selected (the slice [6:8] does not
    parse, or parses to a code below 11) leave no trace wherever they
    stand in the listing: the file loop gives the same result, globals
    and output on the listing without them. *)
Theorem unselected_files_leave_no_trace (fileList : list (string * archive))
  (g : globals) :
  file_loop np fileList g =
  file_loop np (filter (fun entry => selected (fst entry)) fileList) g.
Proof.
  unfold file_loop. revert g.
  induction fileList as [| [filename file] l IH]; intros g; [reflexivity |].
  cbn [filter fst]. destruct (selected filename) eqn:Hsel.
  - rewrite !for_each_cons.
    destruct (process_file np (filename, file) g) as [[u | e] g'];
      [apply IH | reflexivity].
  - rewrite for_each_cons, (unselected_file filename file g Hsel). apply IH.
Qed.
End Loops.

(** ** The exceptions that end a run *)

Section Exceptions.
Variable np : numpy.

Lemma raises_only_rbind P {X Y} (r : res X) (k : X -> res Y) :
  raises_only P r -> (forall x, raises_only P (k x)) ->
  raises_only P (rbind r k).
Proof. destruct r as [x | e]; intros Hr Hk; [apply Hk | exact Hr]. Qed.

Lemma int_raises s : raises_only decode_exn (int s).
Proof. unfold int. destruct (parse_int s); reflexivity. Qed.

Lemma float_raises s : raises_only decode_exn (float s).
Proof. unfold float. destruct (parse_float s); reflexivity. Qed.

Lemma index_raises s i : raises_only decode_exn (index s i).
Proof. unfold index. destruct (_ && _); reflexivity. Qed.

Lemma getEducation_raises s : raises_only decode_exn (getEducation s).
Proof.
  unfold getEducation. destruct (negb _); [| exact I].
  apply raises_only_rbind; [apply int_raises | intros; exact I].
Qed.

Lemma getIncome_raises s : raises_only decode_exn (getIncome s).
Proof.
  unfold getIncome. destruct (negb _); [| exact I].
  apply raises_only_rbind; [apply int_raises | intros; exact I].
Qed.

Lemma convertBMI_raises s c : raises_only decode_exn (convertBMI s c).
Proof.
  unfold convertBMI.
  repeat (apply raises_only_rbind;
          [ destruct (_ && _); [| exact I];
            apply raises_only_rbind; [apply float_raises | intros; exact I]
          | intros ? ]).
  exact I.
Qed.

Lemma getHlth_raises s : raises_only decode_exn (getHlth s).
Proof.
  unfold getHlth. apply raises_only_rbind.
  - destruct (negb _); [| exact I].
    apply raises_only_rbind; [apply int_raises |].
    intros v. destruct (6 <? v); exact I.
  - intros v. apply raises_only_rbind; [| intros; exact I].
    unfold assert. destruct (existsb _ _); reflexivity.
Qed.

Lemma decode_raises fields c record :
  raises_only decode_exn (decode fields c record).
Proof.
  unfold decode. destruct (income fields), (bmi fields).
  apply raises_only_rbind.
  { apply raises_only_rbind; [apply index_raises | apply getEducation_raises]. }
  intros e. apply raises_only_rbind; [apply getIncome_raises | intros i].
  apply raises_only_rbind; [apply convertBMI_raises | intros b].
  apply raises_only_rbind; [| intros; exact I].
  apply raises_only_rbind; [apply index_raises | apply getHlth_raises].
Qed.

Lemma process_record_raises fields c record g :
  raises_only decode_exn (fst (process_record np fields c record g)).
Proof.
  unfold process_record, bind, lift.
  pose proof (decode_raises fields c record) as H.
  destruct (decode fields c record) as [[[[e i] b] y] | x]; [| exact H].
  rewrite validate_never_raises. exact I.
Qed.

Lemma for_each_raises P {X} (body : X -> M unit) (l : list X) :
  (forall x g, raises_only P (fst (body x g))) ->
  forall g, raises_only P (fst (for_each l body g)).
Proof.
  intros Hb. induction l as [| x l IH]; intros g; [exact I |].
  rewrite for_each_cons. specialize (Hb x g).
  destruct (body x g) as [[u | e] g']; [apply IH | exact Hb].
Qed.

Lemma try_except_raises (body : M unit) (g : globals) (e : exn) :
  fst (try_except [ValueError; ZeroDivisionError] body g) = Raise e ->
  fst (body g) = Raise e /\ e <> ValueError /\ e <> ZeroDivisionError.
Proof.
  unfold try_except. destruct (body g) as [[u | e'] g']; cbn [fst].
  - discriminate.
  - destruct e'; cbn [existsb exn_eqb orb fst]; intros H;
      try discriminate H; inversion H; subst;
      (split; [reflexivity | split; discriminate]).
Qed.

Lemma open_member_cases (members : list (string * list string))
  (failure : option exn) :
  match open_member members failure with
  | Ok r => snd r = failure
  | Raise e => escapes e = true
  end.
Proof.
  unfold open_member, assert.
  destruct (_ =? 1); cbn [rbind]; [| reflexivity].
  destruct members as [| [m lines] members]; reflexivity.
Qed.

Lemma open_reader_cases (file : archive) :
  match open_reader file with
  | Ok r => snd r = None \/ snd r = library_failure file
  | Raise e => escapes e = true \/ library_failure file = Some e
  end.
Proof.
  destruct file as [| members | e | members e]; cbn [open_reader].
  - right. reflexivity.
  - pose proof (open_member_cases members None) as H.
    destruct (open_member members None); [left | left]; exact H.
  - right. reflexivity.
  - pose proof (open_member_cases members (Some e)) as H.
    destruct (open_member members (Some e)); [right | left]; exact H.
Qed.

Lemma for_reader_raises fields c (r : reader) g e :
  fst (for_reader r (process_record np fields c) g) = Raise e ->
  decode_exn e = true \/ snd r = Some e.
Proof.
  unfold for_reader, bind.
  pose proof (for_each_raises decode_exn (process_record np fields c) (fst r)
                (process_record_raises fields c) g) as H.
  destruct (for_each (fst r) (process_record np fields c) g)
    as [[u | e'] g']; cbn [fst] in *.
  - destruct (snd r) as [e' |]; cbn [raise ret fst]; intros He;
      [| discriminate He].
    inversion He. right. reflexivity.
  - intros He. inversion He; subst. left. exact H.
Qed.

Lemma process_records_raises fields c file g e :
  fst (process_records np fields c file g) = Raise e ->
  e <> ValueError /\ e <> ZeroDivisionError
  /\ (escapes e = true \/ library_failure file = Some e).
Proof.
  unfold process_records. intros H.
  apply try_except_raises in H. destruct H as (H & Hv & Hz).
  split; [exact Hv | split; [exact Hz |]].
  unfold bind, lift in H. pose proof (open_reader_cases file) as Ho.
  destruct (open_reader file) as [r | e0]; cbn [fst] in H.
  - apply for_reader_raises in H. destruct H as [H | H].
    + left. destruct e; try discriminate H; try reflexivity.
      exfalso. apply Hv. reflexivity.
    + destruct Ho as [Ho | Ho]; rewrite Ho in H; [discriminate H |].
      right. exact H.
  - inversion H; subst. exact Ho.
Qed.

Lemma process_file_raises filename file g e :
  fst (process_file np (filename, file) g) = Raise e ->
  e <> ValueError /\ e <> ZeroDivisionError
  /\ (escapes e = true
      \/ (selected filename = true /\ library_failure file = Some e)).
Proof.
  rewrite process_file_eq. unfold selected.
  destruct (parse_int (slice filename 6 8)) as [c |]; [| discriminate].
  destruct (Z.ltb_spec c 11) as [Hlt | Hge]; [discriminate |].
  destruct (getitem fieldDict c) as [[f |] | e0] eqn:Hf.
  - intros H. apply process_records_raises in H.
    destruct H as (Hv & Hz & [H | H]).
    + split; [exact Hv | split; [exact Hz | left; exact H]].
    + split; [exact Hv | split; [exact Hz | right]].
      split; [lia | exact H].
  - apply fieldDict_none in Hf. lia.
  - destruct (fieldDict_missing c e0 Hf) as [-> _]. cbn [fst].
    intros H. inversion H; subst.
    split; [discriminate | split; [discriminate | left; reflexivity]].
Qed.

(** X7: the exceptions that end the file loop.  A [ValueError] or a
    [ZeroDivisionError] never leaves it.  An exception that does is an
    [IndexError], [AssertionError] or [KeyError] of the statements of the
    script, or it is the exception that the zip library raised on a
    selected entry of the directory that it could not open or read to
    its end.  The [None] entries of the table (keys 0 to 3) are never
    subscripted, so that the script itself raises no [TypeError]. *)
Theorem file_loop_exceptions (fileList : list (string * archive))
  (g : globals) :
  match fst (file_loop np fileList g) with
  | Ok _ => True
  | Raise e =>
      e <> ValueError /\ e <> ZeroDivisionError
      /\ (e = IndexError \/ e = AssertionError \/ e = KeyError
          \/ exists filename file,
               In (filename, file) fileList
               /\ selected filename = true
               /\ library_failure file = Some e)
  end.
Proof.
  unfold file_loop. revert g.
  induction fileList as [| [filename file] l IH]; intros g; [exact I |].
  rewrite for_each_cons.
  pose proof (process_file_raises filename file g) as Hfile.
  destruct (process_file np (filename, file) g) as [[u | e] g'];
    cbn [fst] in *.
  - specialize (IH g').
    destruct (fst (for_each l (process_file np) g')) as [u' | e];
      [exact I |].
    destruct IH as (Hv & Hz & IH).
    split; [exact Hv | split; [exact Hz |]].
    destruct IH as [H | [H | [H | (fn & fl & Hin & Hsel & Hlib)]]];
      [tauto | tauto | tauto |].
    right; right; right. exists fn, fl.
    split; [right; exact Hin | split; assumption].
  - destruct (Hfile e eq_refl) as (Hv & Hz & H).
    split; [exact Hv | split; [exact Hz |]].
    destruct H as [H | [Hsel Hlib]].
    + destruct e; try discriminate H; tauto.
    + right; right; right. exists filename, file.
      split; [left; reflexivity | split; assumption].
Qed.
End Exceptions.

(** ** Shape and symmetry of the accumulator *)

Section Matrices.
Context {F : Type}.
Variable add mul : F -> F -> F.
Variable of_int : Z -> F.
Local Open Scope list_scope.

Lemma nth_error_vadd (u v : list F) : forall j,
  nth_error (vadd add u v) j =
  match nth_error u j, nth_error v j with
  | Some a, Some b => Some (add a b)
  | _, _ => None
  end.
Proof.
  revert v. induction u as [| a u IH]; intros [| b v] [| j];
    cbn [vadd nth_error]; try reflexivity.
  - destruct (nth_error u j); reflexivity.
  - apply IH.
Qed.

Lemma nth_error_madd (M N : list (list F)) : forall i,
  nth_error (madd add M N) i =
  match nth_error M i, nth_error N i with
  | Some r, Some s => Some (vadd add r s)
  | _, _ => None
  end.
Proof.
  revert N. induction M as [| r M IH]; intros [| s N] [| i];
    cbn [madd nth_error]; try reflexivity.
  - destruct (nth_error M i); reflexivity.
  - apply IH.
Qed.

Lemma entry_madd (M N : list (list F)) (i j : nat) :
  entry (madd add M N) i j =
  match nth_error M i, nth_error N i with
  | Some r, Some s =>
      match nth_error r j, nth_error s j with
      | Some a, Some b => Some (add a b)
      | _, _ => None
      end
  | _, _ => None
  end.
Proof.
  unfold entry. rewrite nth_error_madd.
  destruct (nth_error M i), (nth_error N i); try reflexivity.
  apply nth_error_vadd.
Qed.

Lemma entry_outer (x : list F) (i j : nat) :
  entry (outer mul x) i j =
  match nth_error x i, nth_error x j with
  | Some a, Some b => Some (mul a b)
  | _, _ => None
  end.
Proof.
  unfold entry, outer. rewrite nth_error_map.
  destruct (nth_error x i) as [a |]; cbn [option_map]; [| reflexivity].
  rewrite nth_error_map. destruct (nth_error x j); reflexivity.
Qed.

Lemma length_vadd (u v : list F) :
  List.length (vadd add u v) = Nat.min (List.length u) (List.length v).
Proof.
  revert v. induction u as [| a u IH]; intros [| b v]; cbn [vadd List.length];
    try reflexivity.
  rewrite IH. reflexivity.
Qed.

Lemma length_madd (M N : list (list F)) :
  List.length (madd add M N) = Nat.min (List.length M) (List.length N).
Proof.
  revert N. induction M as [| r M IH]; intros [| s N]; cbn [madd List.length];
    try reflexivity.
  rewrite IH. reflexivity.
Qed.

Lemma rows_madd (k : nat) (M N : list (list F)) :
  Forall (fun row => List.length row = k) M ->
  Forall (fun row => List.length row = k) N ->
  Forall (fun row => List.length row = k) (madd add M N).
Proof.
  intros HM. revert N. induction HM as [| r M Hr HM IH]; intros N HN.
  - constructor.
  - destruct HN as [| s N Hs HN]; cbn [madd]; constructor.
    + rewrite length_vadd, Hr, Hs. apply Nat.min_id.
    + apply IH, HN.
Qed.

Lemma shaped_accumulate (k : nat) (s : acc F) (x : list F) (y : Z) :
  shaped k s -> List.length x = k ->
  shaped k (accumulate add mul of_int s x y).
Proof.
  intros (HA & Hrows & Hz) Hx. unfold shaped, accumulate. cbn [A z].
  repeat split.
  - rewrite length_madd. unfold outer. rewrite length_map, HA, Hx.
    apply Nat.min_id.
  - apply rows_madd; [exact Hrows |].
    unfold outer. apply Forall_map, Forall_forall. intros xi _.
    rewrite length_map. exact Hx.
  - rewrite length_vadd. unfold scale. rewrite length_map, Hz, Hx.
    apply Nat.min_id.
Qed.

Lemma shaped_accumulate_all (k : nat) (obs : list (list F * Z)) :
  Forall (fun o => List.length (fst o) = k) obs ->
  forall s, shaped k s -> shaped k (accumulate_all add mul of_int s obs).
Proof.
  induction 1 as [| o obs Ho _ IH]; intros s Hs; [exact Hs |].
  rewrite accumulate_all_cons. apply IH, shaped_accumulate; assumption.
Qed.

Section Commutative.
Hypothesis mul_comm : forall a b, mul a b = mul b a.

Lemma symmetric_outer (x : list F) : symmetric (outer mul x).
Proof.
  intros i j. rewrite !entry_outer.
  destruct (nth_error x i), (nth_error x j); try reflexivity.
  rewrite mul_comm. reflexivity.
Qed.

Lemma symmetric_madd (M N : list (list F)) :
  symmetric M -> symmetric N -> symmetric (madd add M N).
Proof.
  intros HM HN i j. specialize (HM i j). specialize (HN i j).
  rewrite !entry_madd. unfold entry in HM, HN.
  destruct (nth_error M i) as [r |], (nth_error M j) as [r' |],
    (nth_error N i) as [s |], (nth_error N j) as [s' |];
    try rewrite HM; try rewrite HN; try rewrite <- HM; try rewrite <- HN;
    try reflexivity;
    repeat match goal with
           | |- context [match ?o with _ => _ end] => destruct o
           end; reflexivity.
Qed.

Lemma symmetric_accumulate_all (obs : list (list F * Z)) : forall s,
  symmetric (A s) -> symmetric (A (accumulate_all add mul of_int s obs)).
Proof.
  induction obs as [| o obs IH]; intros s Hs; [exact Hs |].
  rewrite accumulate_all_cons. apply IH. unfold accumulate. cbn [A].
  apply symmetric_madd; [exact Hs | apply symmetric_outer].
Qed.
End Commutative.
End Matrices.

(** ** Invariants of a whole run *)

Section Run.
Variable np : numpy.
Local Open Scope list_scope.

Lemma fmul_comm (x y : f64) : fmul x y = fmul y x.
Proof.
  unfold fmul.
  destruct x as [sx | sx | | sx mx ex], y as [sy | sy | | sy my ey];
    cbn [SFmul]; try reflexivity; try (rewrite xorb_comm; reflexivity).
  rewrite xorb_comm, Pos.mul_comm, Z.add_comm. reflexivity.
Qed.

Lemma file_loop_tracked (fileList : list (string * archive)) :
  tracked np (snd (file_loop np fileList init)).
Proof.
  apply (preserves_for_each (tracked np) (process_file np) fileList
           (tracked_file np) init).
  exists []. apply tracked_init.
Qed.

Lemma accepted_obs_length (obs : list (list f64 * Z)) :
  Forall accepted_obs obs ->
  Forall (fun o => List.length (fst o) = 4%nat) obs.
Proof.
  apply Forall_impl. intros o (e & i & b & _ & ->). reflexivity.
Qed.

(** X8: after the file loop of any run, [A] has four rows of four
    entries and [z] has four entries. *)
Theorem accumulator_shape (fileList : list (string * archive)) :
  shaped 4 (g_acc (snd (file_loop np fileList init))).
Proof.
  destruct (file_loop_tracked fileList) as [obs (Ha & _ & Hf)].
  rewrite Ha. unfold accumulated.
  apply shaped_accumulate_all; [apply accepted_obs_length, Hf |].
  repeat split; repeat constructor.
Qed.

(** X9: after the file loop of any run, [A] is symmetric, entry by
    entry, in binary64 arithmetic: the rounded products [x_i * x_j] and
    [x_j * x_i] are the same number and are added in the same order. *)
Theorem accumulator_symmetric (fileList : list (string * archive)) :
  symmetric (A (g_acc (snd (file_loop np fileList init)))).
Proof.
  destruct (file_loop_tracked fileList) as [obs (Ha & _ & _)].
  rewrite Ha. unfold accumulated.
  apply symmetric_accumulate_all; [exact fmul_comm |].
  intros i j. unfold entry.
  do 5 (try destruct i as [| i]); do 5 (try destruct j as [| j]);
    cbn; try reflexivity;
    destruct i; destruct j; reflexivity.
Qed.

(** A property of the globals that printing a file name keeps and each
    record keeps is kept by the file loop. *)
Lemma preserves_file_loop (P : globals -> Prop) :
  (forall filename, preserves P (print [CStr filename])) ->
  (forall fields c record, preserves P (process_record np fields c record)) ->
  forall fileList, preserves P (file_loop np fileList).
Proof.
  intros Hprint Hrec fileList. apply preserves_for_each.
  intros [filename file]. unfold process_file.
  apply preserves_try, preserves_bind.
  - unfold select_year.
    apply preserves_bind; [apply preserves_lift | intros c].
    apply preserves_bind.
    { destruct (c <? 11); intros g Hg; exact Hg. }
    intros _. apply preserves_bind; [apply Hprint | intros _].
    apply preserves_bind; [apply preserves_lift | intros [f |]];
      intros g Hg; exact Hg.
  - intros [c fields].
    apply preserves_bind; [apply preserves_lift | intros reader].
    apply preserves_for_reader. intros record. apply Hrec.
Qed.

Lemma getHlth_range (s : string) (v : Z) :
  getHlth s = Ok v -> v = -1 \/ 1 <= v <= 6.
Proof.
  assert (Hin : forall w,
             rbind (assert (existsb (Z.eqb w) [-1; 1; 2; 3; 4; 5; 6]))
               (fun _ => Ok w) = Ok v -> v = -1 \/ 1 <= v <= 6).
  { intros w. unfold assert.
    destruct (existsb (Z.eqb w) [-1; 1; 2; 3; 4; 5; 6]) eqn:Hw;
      cbv beta iota delta [rbind]; [| discriminate].
    intros H; inversion H; subst v. apply existsb_exists in Hw.
    destruct Hw as (k & Hk & Hw). apply Z.eqb_eq in Hw. subst k.
    cbn [In] in Hk. lia. }
  unfold getHlth.
  destruct (negb (String.eqb s " ")); cbv beta iota delta [rbind];
    [| apply Hin].
  destruct (int s) as [w |]; [| discriminate].
  destruct (6 <? w); apply Hin.
Qed.

Lemma decode_health_range fields c record e i b y :
  decode fields c record = Ok (e, i, b, y) -> y = -1 \/ 1 <= y <= 6.
Proof.
  unfold decode. destruct (income fields), (bmi fields).
  destruct (rbind (index record (education fields - 1)) getEducation);
    cbn [rbind]; [| discriminate].
  destruct (getIncome _); cbn [rbind]; [| discriminate].
  destruct (convertBMI _ _); cbn [rbind]; [| discriminate].
  destruct (index record (genhlth fields - 1)) as [h |]; cbn [rbind];
    [| discriminate].
  destruct (getHlth h) as [v |] eqn:Hh; cbn [rbind]; [| discriminate].
  intros H; inversion H; subst. apply (getHlth_range h), Hh.
Qed.

Lemma squares_record fields c record :
  preserves squares_bounded (process_record np fields c record).
Proof.
  intros g (Hn & Hlo & Hhi). unfold process_record, bind, lift.
  destruct (decode fields c record) as [[[[e i] b] y] |] eqn:Hd;
    [| repeat split; assumption].
  apply decode_health_range in Hd.
  unfold validate_accumulate, try_except, bind, get, put, ret, raise, print.
  destruct (accept e i b y) eqn:Hacc; [| repeat split; assumption].
  assert (Hy : 1 <= y <= 6).
  { unfold accept in Hacc. rewrite !andb_true_iff, negb_true_iff in Hacc.
    destruct Hacc as [_ Hne]. apply Z.eqb_neq in Hne. lia. }
  cbn [g_acc].
  assert (Hstep : squares_bounded
            {| g_acc := accumulate64 (g_acc g)
                          [float_of_int 1; float_of_int i; float_of_int e;
                           to_float b] y;
               g_b := g_b g; g_stdout := g_stdout g |}).
  { unfold squares_bounded, accumulate64, accumulate. cbn [g_acc n sumSqrs].
    nia. }
  destruct (_ && _); exact Hstep.
Qed.

(** X10: after the file loop of any run, the count of accepted
    observations and the sum of the squares of their health ratings
    bound each other, [n <= sumSqrs <= 36 * n], because a rating that
    is decoded and accepted lies between 1 and 6. *)
Theorem squares_within_bounds (fileList : list (string * archive)) :
  squares_bounded (snd (file_loop np fileList init)).
Proof.
  apply (preserves_file_loop squares_bounded).
  - intros filename g H. exact H.
  - apply squares_record.
  - unfold squares_bounded. cbn. lia.
Qed.

Lemma reports_validate education income bmi y :
  preserves reports_counted (validate_accumulate np education income bmi y).
Proof.
  intros g (Hn & Hc).
  unfold validate_accumulate, try_except, bind, get, put, ret, raise, print.
  destruct (accept education income bmi y); [| split; assumption].
  cbn [g_acc]. unfold accumulate64, accumulate. cbn [n].
  set (k := n (g_acc g)) in *.
  destruct (Z.eqb_spec ((k + 1) mod 10000) 0) as [Hm | Hm]; cbn [andb].
  - replace (k + 1 =? 0) with false by lia. cbn [negb snd].
    unfold reports_counted. cbn [g_acc g_stdout n]. fold k. split; [lia |].
    rewrite filter_app, length_app.
    replace (filter is_report [map CFloat (estimate np _)])
      with [map CFloat (estimate np
              (accumulate fadd fmul float_of_int (g_acc g)
                 [float_of_int 1; float_of_int income;
                  float_of_int education; to_float bmi] y))].
    + cbn [List.length].
      pose proof (Z.div_mod k 10000). pose proof (Z.div_mod (k + 1) 10000).
      pose proof (Z.mod_pos_bound k 10000). lia.
    + cbn [filter]. destruct (estimate np _); reflexivity.
  - cbn [snd]. unfold reports_counted. cbn [g_acc g_stdout n]. fold k.
    split; [lia |]. rewrite Hc.
    pose proof (Z.div_mod k 10000). pose proof (Z.div_mod (k + 1) 10000).
    pose proof (Z.mod_pos_bound k 10000).
    pose proof (Z.mod_pos_bound (k + 1) 10000). nia.
Qed.

(** X11: the file loop prints one progress report for every 10,000
    accepted observations, and none before the first 10,000: after any
    run, the number of printed lines other than file names is
    [n / 10000]. *)
Theorem progress_reports_counted (fileList : list (string * archive)) :
  let g := snd (file_loop np fileList init) in
  Z.of_nat (List.length (filter is_report (g_stdout g))) =
  n (g_acc g) / 10000.
Proof.
  apply (preserves_file_loop reports_counted).
  - intros filename g (Hn & Hc). split; [exact Hn |]. unfold print.
    cbn [snd g_acc g_stdout]. rewrite filter_app, length_app.
    cbn [filter is_report List.length]. lia.
  - intros fields c record. unfold process_record.
    apply preserves_bind; [apply preserves_lift |].
    intros [[[e i] b] y]. apply reports_validate.
  - split; [cbn; lia | reflexivity].
Qed.
End Run.

(** ** The outcome of the script *)

Section Outcome.
Variable np : numpy.
Local Open Scope list_scope.

(** X12: the script ends in one of three ways.  An exception that
    leaves the file loop ends it, with nothing more printed.  If the
    loop ends normally with fewer than 10,000 accepted observations, the
    finalization raises [NameError] and prints nothing.  Otherwise [b]
    is bound and the two lines of the report are printed after the
    output of the loop: the finalization never divides by zero. *)
Theorem run_outcome (fileList : list (string * archive)) :
  let g := snd (file_loop np fileList init) in
  match fst (file_loop np fileList init) with
  | Raise e => run np fileList = (Raise e, g)
  | Ok _ =>
      if n (g_acc g) <? 10000 then run np fileList = (Raise NameError, g)
      else
        exists b,
          g_b g = Some b
          /\ run np fileList =
             (Ok tt, {| g_acc := g_acc g; g_b := g_b g;
                        g_stdout := g_stdout g ++ report np (g_acc g) b |})
  end.
Proof.
  cbv zeta. unfold run, main, bind.
  destruct (file_loop_tracked np fileList) as [obs (Ha & Hb & _)].
  destruct (file_loop np fileList init) as [[u | e] g]; cbn [fst snd] in *;
    [| reflexivity].
  assert (Hn : n (g_acc g) = Z.of_nat (List.length obs))
    by (rewrite Ha; apply accumulated_count).
  unfold last_report in Hb. rewrite <- Hn in Hb.
  destruct (Z.ltb_spec (n (g_acc g)) 10000) as [Hlt | Hge].
  - unfold finalize, bind, get, raise. rewrite Hb. reflexivity.
  - eexists. split; [exact Hb |]. apply finalize_bound; [exact Hb | lia].
Qed.
End Outcome.

(** ** Ranges of the decoded fields *)

Lemma convertBMI_from2011 (s : string) (c : Z) :
  10 < c -> convertBMI s c = convertBMI s 11.
Proof.
  intros H. unfold convertBMI.
  replace (c =? 0) with false by lia. replace (c =? 1) with false by lia.
  replace (2 <=? c) with true by lia. replace (c <=? 10) with false by lia.
  replace (10 <? c) with true by lia. reflexivity.
Qed.

Lemma all_from_spec (P : Z -> bool) (count : nat) : forall k j,
  all_from count k P = true -> k <= j < k + Z.of_nat count -> P j = true.
Proof.
  induction count as [| count IH]; intros k j Hall Hj; [lia |].
  cbn [all_from] in Hall. apply andb_true_iff in Hall.
  destruct Hall as [Hk Hall].
  destruct (Z.eq_dec j k) as [-> | Hne]; [exact Hk |].
  apply (IH (k + 1)); [exact Hall | lia].
Qed.

Lemma bmi_check_all : all_from (Z.to_nat 10000) 0 bmi_check = true.
Proof. vm_compute. reflexivity. Qed.

(** X13: under the rule of the selected years (code above 10), a BMI
    field of four digits with value [k] always decodes, without raising,
    to a float, and that float passes the test [0 < bmi < 99] exactly
    when [1 <= k <= 9899]: in binary64 no product [0.01 * k] falls on
    the wrong side of a bound. *)
Theorem bmi_field_acceptance (k c : Z) :
  0 <= k <= 9999 -> 10 < c ->
  exists f,
    convertBMI (field4 k) c = Ok (PyFloat f)
    /\ (bmi_in_range (PyFloat f) = true <-> 1 <= k <= 9899).
Proof.
  intros Hk Hc. rewrite (convertBMI_from2011 _ c Hc).
  pose proof (all_from_spec bmi_check _ 0 k bmi_check_all) as Hall.
  rewrite Z2Nat.id in Hall by lia. specialize (Hall ltac:(lia)).
  unfold bmi_check in Hall.
  destruct (convertBMI (field4 k) 11) as [[i | f] | e];
    try discriminate Hall.
  exists f. split; [reflexivity |].
  apply eqb_prop in Hall. rewrite Hall, andb_true_iff, !Z.leb_le. tauto.
Qed.

(** X14: on a one-character string [getEducation] returns the value of
    a digit, 9 on the blank, and raises [ValueError] on any other
    character: a decoded education is between 0 and 9. *)
Theorem getEducation_single_character (c : ascii) :
  getEducation (String c "") =
  if Ascii.eqb c " " then Ok 9
  else if is_digit c then Ok (digit_val c)
  else Raise ValueError.
Proof.
  destruct c as [[] [] [] [] [] [] [] []]; vm_compute; reflexivity.
Qed.

Lemma in_all_ascii (c : ascii) : In c all_ascii.
Proof.
  assert (H : existsb (Ascii.eqb c) all_ascii = true)
    by (destruct c as [[] [] [] [] [] [] [] []]; vm_compute; reflexivity).
  apply existsb_exists in H. destruct H as (c' & Hin & Heq).
  apply Ascii.eqb_eq in Heq. subst c'. exact Hin.
Qed.

Lemma income_check_all :
  forallb (fun c1 => forallb (income_check c1) all_ascii) all_ascii = true.
Proof. vm_compute. reflexivity. Qed.

(** X15: on every string of two characters [getIncome] returns a number
    between -9 and 99 (a sign and a digit parse as well as two digits),
    or raises [ValueError]: it raises nothing else. *)
Theorem getIncome_two_characters (c1 c2 : ascii) :
  match getIncome (String c1 (String c2 "")) with
  | Ok v => -9 <= v <= 99
  | Raise e => e = ValueError
  end.
Proof.
  pose proof income_check_all as Hall. rewrite forallb_forall in Hall.
  specialize (Hall c1 (in_all_ascii c1)). rewrite forallb_forall in Hall.
  specialize (Hall c2 (in_all_ascii c2)). unfold income_check in Hall.
  destruct (getIncome (String c1 (String c2 ""))) as [v | e].
  - apply andb_true_iff in Hall. lia.
  - destruct e; try discriminate Hall; reflexivity.
Qed.

(** ** Counting the accepted records *)

Section Counting.
Variable np : numpy.
Local Open Scope list_scope.

Lemma validate_count education income bmi y g :
  n (g_acc (snd (validate_accumulate np education income bmi y g))) =
  n (g_acc g) + (if accept education income bmi y then 1 else 0).
Proof.
  unfold validate_accumulate, try_except, bind, get, put, ret, raise, print.
  destruct (accept education income bmi y).
  - cbn [g_acc]. destruct (_ && _); reflexivity.
  - cbn. lia.
Qed.

(** X16: when every record of a list decodes, the record loop ends
    normally and [n] grows by exactly the number of records that pass
    the validity test. *)
Theorem record_loop_counts (fields : layout) (c : Z)
  (records : list string) (g : globals) :
  forallb (record_decodes fields c) records = true ->
  fst (for_each records (process_record np fields c) g) = Ok tt
  /\ n (g_acc (snd (for_each records (process_record np fields c) g))) =
     n (g_acc g)
     + Z.of_nat (List.length (filter (record_accepted fields c) records)).
Proof.
  revert g. induction records as [| r records IH]; intros g Hall.
  - cbn. split; [reflexivity | lia].
  - cbn [forallb] in Hall. apply andb_true_iff in Hall.
    destruct Hall as [Hr Hall]. rewrite for_each_cons.
    unfold record_decodes in Hr. cbn [filter]. unfold record_accepted at 1.
    assert (Hrec : forall d, decode fields c r = Ok d ->
              process_record np fields c r g =
              let '(e, i, b, y) := d in validate_accumulate np e i b y g).
    { intros d Hd. unfold process_record, bind, lift. rewrite Hd.
      destruct d as [[[e i] b] y]. reflexivity. }
    destruct (decode fields c r) as [[[[e i] b] y] |]; [| discriminate Hr].
    rewrite (Hrec _ eq_refl).
    pose proof (validate_never_raises np e i b y g) as Hok.
    pose proof (validate_count e i b y g) as Hcnt.
    destruct (validate_accumulate np e i b y g) as [[[] | x] g'];
      cbn [fst snd] in *; [| discriminate Hok].
    destruct (IH g' Hall) as [H1 H2]. split; [exact H1 |].
    rewrite H2, Hcnt. destruct (accept e i b y); cbn [List.length]; lia.
Qed.
End Counting.

(** ** Sample applications *)

Lemma field_widths_witness :
  String.length (slice good11 (fst (income layout11) - 1)
                   (snd (income layout11))) = 2%nat
  /\ String.length (slice good11 (fst (bmi layout11) - 1)
                      (snd (bmi layout11))) = 4%nat.
Proof.
  apply (field_widths 11 layout11 good11).
  - reflexivity.
  - vm_compute. discriminate.
Defined.

Lemma rejected_record_leaves_no_trace_witness :
  file_loop np0 [file11 ([good11] ++ rejected11 :: [good11])%list] init =
  file_loop np0 [file11 ([good11] ++ [good11])%list] init.
Proof.
  eapply (rejected_record_leaves_no_trace np0 "LLCP2011.zip" "LLCP2011.ASC"
            [good11] [good11] rejected11 [] init 11 layout11).
  - vm_compute; reflexivity.
  - reflexivity.
  - vm_compute; reflexivity.
  - vm_compute; reflexivity.
Defined.

Lemma short_record_stops_run_witness :
  main np0 [file11 ([] ++ "" :: [good11])%list; file11 [good11]] init =
  (Raise IndexError, printed [CStr "LLCP2011.zip"] init).
Proof.
  apply (short_record_stops_run np0 "LLCP2011.zip" "LLCP2011.ASC"
           [] [good11] "" [file11 [good11]] init
           (printed [CStr "LLCP2011.zip"] init) 11 layout11).
  - vm_compute; reflexivity.
  - reflexivity.
  - vm_compute; reflexivity.
  - reflexivity.
Defined.

Lemma not_an_archive_stops_run_witness :
  main np0 [("LLCP2011.zip", NotZip); file11 [good11]] init =
  (Raise BadZipFile, printed [CStr "LLCP2011.zip"] init).
Proof.
  apply (not_an_archive_stops_run np0 "LLCP2011.zip" [file11 [good11]] init
           11 layout11).
  - vm_compute; reflexivity.
  - reflexivity.
Defined.

Lemma damaged_member_ends_file_witness :
  main np0
    [("LLCP2011.zip",
      Damaged [("LLCP2011.ASC", [good11])] (OtherError "zlib.error"));
     file11 [good11]] init =
  (Raise (OtherError "zlib.error"),
   snd (for_each [good11] (process_record np0 layout11 11)
          (printed [CStr "LLCP2011.zip"] init))).
Proof.
  apply (damaged_member_ends_file np0 "LLCP2011.zip" "LLCP2011.ASC"
           [good11] (OtherError "zlib.error") [file11 [good11]] init
           (snd (for_each [good11] (process_record np0 layout11 11)
                   (printed [CStr "LLCP2011.zip"] init)))
           11 layout11).
  - vm_compute; reflexivity.
  - reflexivity.
  - vm_compute; reflexivity.
  - reflexivity.
Defined.

Lemma bmi_field_acceptance_witness :
  exists f,
    convertBMI (field4 1850) 11 = Ok (PyFloat f)
    /\ (bmi_in_range (PyFloat f) = true <-> 1 <= 1850 <= 9899).
Proof. apply (bmi_field_acceptance 1850 11); lia. Defined.

Lemma record_loop_counts_witness :
  fst (for_each [good11; rejected11; good11]
         (process_record np0 layout11 11) init) = Ok tt
  /\ n (g_acc (snd (for_each [good11; rejected11; good11]
                      (process_record np0 layout11 11) init))) =
     n (g_acc init)
     + Z.of_nat (List.length (filter (record_accepted layout11 11)
                                [good11; rejected11; good11])).
Proof.
  apply (record_loop_counts np0 layout11 11 [good11; rejected11; good11] init).
  vm_compute. reflexivity.
Defined.
